(** * Tool contracts of promptflow: value types, definitions and tools

    A shallow embedding of [promptflow/contracts/tool.py]: the tolerant
    enum-resolution helper [_deserialize_enum], the [ValueType] and
    [ToolType] enumerations, [ValueType.parse], and the
    [serialize]/[deserialize] pairs of [InputDefinition],
    [OutputDefinition] and [Tool].

    Python values are embedded as a tagged union [PyVal]; a call that may
    raise returns a [Result].  Dictionaries with string keys are finite
    maps ([gmap string _]). *)

From Stdlib Require Import ZArith Ascii String.
From Stdlib Require Import Floats.SpecFloat.
From stdpp Require Import gmap strings list fin_maps.

Set Warnings "-register-all".
Set Default Proof Using "Type".

(** ** Python values *)

(** The plain data handled by the contracts: what [json.loads] produces
    (None, booleans, unbounded integers, binary64 floats, strings, lists,
    string-keyed dictionaries) and tuples, which [InputDefinition.serialize]
    builds.  A member of a [str]-mixin enumeration stored inside plain data
    is represented by its string content: it is a [str] instance and that
    content is what any consumer of the mapping reads. *)
Inductive PyVal : Type :=
  | VNone
  | VBool (b : bool)
  | VInt (n : Z)
  | VFloat (f : spec_float)
  | VStr (s : string)
  | VList (l : list PyVal)
  | VTuple (l : list PyVal)
  | VDict (d : gmap string PyVal).

(** [isinstance(v, bool)], [isinstance(v, str)], [isinstance(v, list)]. *)
Definition is_bool (v : PyVal) : bool :=
  match v with VBool _ => true | _ => false end.
Definition is_str (v : PyVal) : bool :=
  match v with VStr _ => true | _ => false end.
Definition is_list (v : PyVal) : bool :=
  match v with VList _ => true | _ => false end.

(** [v is not None]. *)
Definition is_not_none (v : PyVal) : bool :=
  match v with VNone => false | _ => true end.

(** Truth value of [if v:]. *)
Definition truthy (v : PyVal) : bool :=
  match v with
  | VNone => false
  | VBool b => b
  | VInt n => negb (n =? 0)%Z
  | VFloat (S754_zero _) => false
  | VFloat _ => true
  | VStr s => negb (String.eqb s "")
  | VList l | VTuple l => negb (Nat.eqb (length l) 0)
  | VDict d => negb (Nat.eqb (size d) 0)
  end.

(** ** Exceptions and results *)

(** [ValueError msg v] stands for a [ValueError] whose message is built from
    the fixed text [msg] and [repr(v)]. *)
Inductive Exc : Type :=
  | KeyError (key : string)
  | AttributeError (attr : string)
  | TypeError (msg : string)
  | OverflowError (msg : string)
  | ValueError (msg : string) (arg : PyVal)
  | JSONDecodeError (msg : string).

Inductive Result (A : Type) : Type :=
  | Ok (a : A)
  | Raise (e : Exc).
Arguments Ok {A} a.
Arguments Raise {A} e.

(** Sequencing of calls that may raise, with stdpp's [x ← r; k] notation. *)
#[export] Instance result_ret : MRet Result := λ A a, Ok a.
#[export] Instance result_bind : MBind Result := λ A B k r,
  match r with
  | Ok a => k a
  | Raise e => Raise e
  end.

(** [[f(x) for x in l]] where [f] may raise: left to right, first failure wins. *)
Fixpoint map_result {A B} (f : A → Result B) (l : list A) : Result (list B) :=
  match l with
  | [] => Ok []
  | x :: l' => y ← f x ; ys ← map_result f l' ; Ok (y :: ys)
  end.

Definition succeeds {A} (r : Result A) : Prop := ∃ a, r = Ok a.
Definition raises {A} (r : Result A) : Prop := ∃ e, r = Raise e.

(** ** Strings *)

(** [str.lower] as it acts on a string of ASCII characters: the letters A
    to Z are replaced by a to z, every other character is kept.  On a
    string with other characters [str.lower] may do more; [is_ascii] below
    marks the strings on which the two agree. *)
Definition ascii_lower (c : ascii) : ascii :=
  let n := nat_of_ascii c in
  if (65 <=? n) && (n <=? 90) then ascii_of_nat (n + 32) else c.

Fixpoint lower (s : string) : string :=
  match s with
  | EmptyString => EmptyString
  | String c s' => String (ascii_lower c) (lower s')
  end.

(** [v.lower()]: only strings have the method. *)
Definition py_lower (v : PyVal) : Result string :=
  match v with
  | VStr s => Ok (lower s)
  | _ => Raise (AttributeError "lower")
  end.

(** Two strings match case-insensitively when their lower-cased forms agree. *)
Definition ci_eq (a b : string) : Prop := lower a = lower b.

#[global] Instance ci_eq_dec (a b : string) : Decision (ci_eq a b).
Proof. unfold ci_eq. apply _. Defined.

(** ** The host's conversions *)

(** The built-in conversions [int(v)], [float(v)] and [repr(v)] of the host
    interpreter.  Their results are left open: every statement below holds
    whatever they return. *)
Class Builtins := {
  builtin_int : PyVal → Result PyVal;
  builtin_float : PyVal → Result PyVal;
  builtin_repr : PyVal → string;
}.

(** [str(v)]: a string is returned as it is; for the other values of
    [PyVal], [str] and [repr] agree. *)
Definition builtin_str `{Builtins} (v : PyVal) : PyVal :=
  match v with
  | VStr s => VStr s
  | _ => VStr (builtin_repr v)
  end.

(** ** The JSON decoder *)

(** [json.loads] of the standard library on a [str] argument, with the
    default hooks ([parse_float = float], [parse_int = int], the constants
    [NaN], [Infinity] and [-Infinity] accepted).  The decoder is run as a
    machine that reads the text one character at a time: a lexer state
    cuts the text into tokens, and a stack of open containers assembles
    the value.  Strings hold the UTF-8 bytes of the text.  The limits of
    the host (depth of nesting, number of digits of an integer) are not
    part of the model. *)
Module json.

Inductive token : Type :=
  | TLBracket | TRBracket | TLBrace | TRBrace | TComma | TColon
  | TString (s : string)
  | TScalar (v : PyVal).

(** *** Assembling values from tokens *)

Inductive frame : Type :=
  | FArray (items : list PyVal)
  | FObject (d : gmap string PyVal) (key : string).

Inductive expect : Type :=
  | EValue
  | EValueOrEnd
  | EKeyOrEnd
  | EKey (d : gmap string PyVal)
  | EColon (d : gmap string PyVal) (key : string)
  | EAfter (v : PyVal).

Definition err {A} (msg : string) : Result A := Raise (JSONDecodeError msg).

Definition begin_value (stack : list frame) (tok : token)
  : Result (list frame * expect) :=
  match tok with
  | TScalar v => Ok (stack, EAfter v)
  | TString s => Ok (stack, EAfter (VStr s))
  | TLBracket => Ok (FArray [] :: stack, EValueOrEnd)
  | TLBrace => Ok (stack, EKeyOrEnd)
  | _ => err "Expecting value"
  end.

Definition feed (st : list frame * expect) (tok : token)
  : Result (list frame * expect) :=
  let '(stack, e) := st in
  match e with
  | EValue => begin_value stack tok
  | EValueOrEnd =>
      match tok, stack with
      | TRBracket, FArray items :: stack' => Ok (stack', EAfter (VList items))
      | _, _ => begin_value stack tok
      end
  | EKeyOrEnd =>
      match tok with
      | TString k => Ok (stack, EColon ∅ k)
      | TRBrace => Ok (stack, EAfter (VDict ∅))
      | _ => err "Expecting property name enclosed in double quotes"
      end
  | EKey d =>
      match tok with
      | TString k => Ok (stack, EColon d k)
      | _ => err "Expecting property name enclosed in double quotes"
      end
  | EColon d k =>
      match tok with
      | TColon => Ok (FObject d k :: stack, EValue)
      | _ => err "Expecting ':' delimiter"
      end
  | EAfter v =>
      match stack, tok with
      | FArray items :: stack', TComma =>
          Ok (FArray (items ++ [v]) :: stack', EValue)
      | FArray items :: stack', TRBracket =>
          Ok (stack', EAfter (VList (items ++ [v])))
      | FObject d k :: stack', TComma => Ok (stack', EKey (<[k:=v]> d))
      | FObject d k :: stack', TRBrace =>
          Ok (stack', EAfter (VDict (<[k:=v]> d)))
      | [], _ => err "Extra data"
      | _, _ => err "Expecting ',' delimiter"
      end
  end.

Fixpoint feed_all (st : list frame * expect) (toks : list token)
  : Result (list frame * expect) :=
  match toks with
  | [] => Ok st
  | tok :: toks' => st' ← feed st tok ; feed_all st' toks'
  end.

(** *** Cutting the text into tokens *)

(** The phases of a number: an optional minus sign; a zero, or a
    non-zero digit and further digits; optionally a dot and digits;
    optionally [e] or [E], a sign and digits. *)
Inductive num_phase : Type :=
  | NMinus | NZero | NInt | NDot | NFrac | NExp | NExpSign | NExpDigits.

Inductive lex_state : Type :=
  | LStart
  | LWord (rest : string) (v : PyVal)
  | LNum (ph : num_phase) (text : string)
  | LStr (acc : string) (hi : option N)
  | LEsc (acc : string) (hi : option N)
  | LHex (acc : string) (hi : option N) (digits : list N).

Definition snoc (s : string) (c : ascii) : string := s +:+ String c "".

Definition is_ws (c : ascii) : bool :=
  match c with
  | " "%char | "009"%char | "010"%char | "013"%char => true
  | _ => false
  end.

Definition is_digit (c : ascii) : bool :=
  let n := nat_of_ascii c in (48 <=? n) && (n <=? 57).

Definition hex_val (c : ascii) : option N :=
  let n := N_of_ascii c in
  if (48 <=? n)%N && (n <=? 57)%N then Some (n - 48)%N
  else if (65 <=? n)%N && (n <=? 70)%N then Some (n - 55)%N
  else if (97 <=? n)%N && (n <=? 102)%N then Some (n - 87)%N
  else None.

(** The bytes of the UTF-8 form of a code point (a lone surrogate is
    written with the three-byte pattern). *)
Definition utf8 (u : N) : string :=
  let byte (n : N) := ascii_of_N n in
  let cont (n : N) := byte (128 + n mod 64)%N in
  if (u <? 128)%N then String (byte u) ""
  else if (u <? 2048)%N then
    String (byte (192 + u / 64)%N) (String (cont u) "")
  else if (u <? 65536)%N then
    String (byte (224 + u / 4096)%N)
      (String (cont (u / 64)%N) (String (cont u) ""))
  else
    String (byte (240 + u / 262144)%N)
      (String (cont (u / 4096)%N)
         (String (cont (u / 64)%N) (String (cont u) ""))).

Definition is_high (u : N) : bool := (55296 <=? u)%N && (u <=? 56319)%N.
Definition is_low (u : N) : bool := (56320 <=? u)%N && (u <=? 57343)%N.

(** Write out a high surrogate that found no partner. *)
Definition flush (acc : string) (hi : option N) : string :=
  match hi with
  | Some h => acc +:+ utf8 h
  | None => acc
  end.

(** A [\uXXXX] escape has been read in full. *)
Definition unicode_escape (acc : string) (hi : option N) (u : N) : lex_state :=
  match hi with
  | Some h =>
      if is_low u then
        LStr (acc +:+ utf8 (65536 + (h - 55296) * 1024 + (u - 56320))%N) None
      else if is_high u then LStr (acc +:+ utf8 h) (Some u)
      else LStr (acc +:+ utf8 h +:+ utf8 u) None
  | None =>
      if is_high u then LStr acc (Some u) else LStr (acc +:+ utf8 u) None
  end.

Definition simple_escape (c : ascii) : option ascii :=
  match c with
  | "034"%char => Some "034"%char
  | "\"%char => Some "\"%char
  | "/"%char => Some "/"%char
  | "b"%char => Some "008"%char
  | "f"%char => Some "012"%char
  | "n"%char => Some "010"%char
  | "r"%char => Some "013"%char
  | "t"%char => Some "009"%char
  | _ => None
  end.

Fixpoint digits_value (acc : Z) (s : string) : Z :=
  match s with
  | EmptyString => acc
  | String c s' => digits_value (10 * acc + Z.of_nat (nat_of_ascii c - 48)) s'
  end.

(** [int(text)] on the text of an integer literal. *)
Definition int_of_literal (text : string) : Z :=
  match text with
  | String "-"%char s => - digits_value 0 s
  | _ => digits_value 0 text
  end.

(** The token of a number whose text ends here. *)
Definition number_token `{Builtins} (ph : num_phase) (text : string)
  : Result token :=
  match ph with
  | NZero | NInt => Ok (TScalar (VInt (int_of_literal text)))
  | NFrac | NExpDigits => v ← builtin_float (VStr text) ; Ok (TScalar v)
  | NMinus | NDot | NExp | NExpSign => err "Expecting value"
  end.

(** A character read between tokens. *)
Definition start (c : ascii) : Result (lex_state * list token) :=
  if is_ws c then Ok (LStart, [])
  else if is_digit c then
    Ok (LNum (if Ascii.eqb c "0" then NZero else NInt) (String c ""), [])
  else
    match c with
    | "["%char => Ok (LStart, [TLBracket])
    | "]"%char => Ok (LStart, [TRBracket])
    | "{"%char => Ok (LStart, [TLBrace])
    | "}"%char => Ok (LStart, [TRBrace])
    | ","%char => Ok (LStart, [TComma])
    | ":"%char => Ok (LStart, [TColon])
    | "034"%char => Ok (LStr "" None, [])
    | "-"%char => Ok (LNum NMinus "-", [])
    | "n"%char => Ok (LWord "ull" VNone, [])
    | "t"%char => Ok (LWord "rue" (VBool true), [])
    | "f"%char => Ok (LWord "alse" (VBool false), [])
    | "N"%char => Ok (LWord "aN" (VFloat S754_nan), [])
    | "I"%char => Ok (LWord "nfinity" (VFloat (S754_infinity false)), [])
    | _ => err "Expecting value"
    end.

(** The number ends before [c]: emit it and read [c] afresh. *)
Definition end_number `{Builtins} (ph : num_phase) (text : string) (c : ascii)
  : Result (lex_state * list token) :=
  tok ← number_token ph text ;
  '(st, toks) ← start c ;
  Ok (st, tok :: toks).

Definition lex_number `{Builtins} (ph : num_phase) (text : string) (c : ascii)
  : Result (lex_state * list token) :=
  let go ph' := Ok (LNum ph' (snoc text c), []) in
  let is_e := Ascii.eqb c "e" || Ascii.eqb c "E" in
  match ph with
  | NMinus =>
      if Ascii.eqb c "0" then go NZero
      else if is_digit c then go NInt
      else if Ascii.eqb c "I" then
        Ok (LWord "nfinity" (VFloat (S754_infinity true)), [])
      else err "Expecting value"
  | NZero =>
      if Ascii.eqb c "." then go NDot
      else if is_e then go NExp
      else end_number ph text c
  | NInt =>
      if is_digit c then go NInt
      else if Ascii.eqb c "." then go NDot
      else if is_e then go NExp
      else end_number ph text c
  | NDot => if is_digit c then go NFrac else err "Extra data"
  | NFrac =>
      if is_digit c then go NFrac
      else if is_e then go NExp
      else end_number ph text c
  | NExp =>
      if is_digit c then go NExpDigits
      else if Ascii.eqb c "+" || Ascii.eqb c "-" then go NExpSign
      else err "Extra data"
  | NExpSign => if is_digit c then go NExpDigits else err "Extra data"
  | NExpDigits =>
      if is_digit c then go NExpDigits else end_number ph text c
  end.

Definition lex `{Builtins} (st : lex_state) (c : ascii)
  : Result (lex_state * list token) :=
  match st with
  | LStart => start c
  | LWord rest v =>
      match rest with
      | String c' rest' =>
          if Ascii.eqb c c' then
            match rest' with
            | EmptyString => Ok (LStart, [TScalar v])
            | _ => Ok (LWord rest' v, [])
            end
          else err "Expecting value"
      | EmptyString => err "Expecting value"
      end
  | LNum ph text => lex_number ph text c
  | LStr acc hi =>
      if Ascii.eqb c "034" then Ok (LStart, [TString (flush acc hi)])
      else if Ascii.eqb c "\" then Ok (LEsc acc hi, [])
      else if nat_of_ascii c <? 32 then err "Invalid control character"
      else Ok (LStr (snoc (flush acc hi) c) None, [])
  | LEsc acc hi =>
      if Ascii.eqb c "u" then Ok (LHex acc hi [], [])
      else
        match simple_escape c with
        | Some c' => Ok (LStr (snoc (flush acc hi) c') None, [])
        | None => err "Invalid \escape"
        end
  | LHex acc hi digits =>
      match hex_val c with
      | Some d =>
          match digits with
          | [d1; d2; d3] =>
              Ok (unicode_escape acc hi (((d1 * 16 + d2) * 16 + d3) * 16 + d)%N, [])
          | _ => Ok (LHex acc hi (digits ++ [d]), [])
          end
      | None => err "Invalid \uXXXX escape"
      end
  end.

(** The end of the text. *)
Definition lex_end `{Builtins} (st : lex_state) : Result (list token) :=
  match st with
  | LStart => Ok []
  | LNum ph text => tok ← number_token ph text ; Ok [tok]
  | LWord _ _ => err "Expecting value"
  | LStr _ _ | LEsc _ _ | LHex _ _ _ => err "Unterminated string"
  end.

(** *** The decoder *)

Fixpoint run `{Builtins} (ls : lex_state) (ps : list frame * expect)
    (text : string) : Result PyVal :=
  match text with
  | String c text' =>
      '(ls', toks) ← lex ls c ;
      ps' ← feed_all ps toks ;
      run ls' ps' text'
  | EmptyString =>
      toks ← lex_end ls ;
      ps' ← feed_all ps toks ;
      match ps' with
      | ([], EAfter v) => Ok v
      | _ => err "Expecting value"
      end
  end.

Definition loads `{Builtins} (s : string) : Result PyVal :=
  run LStart ([], EValue) s.

End json.

(** ** Enumerations *)

(** What [_deserialize_enum] needs from an [Enum] class: its members in
    definition order (the order of [for i in cls]) and, for each member,
    the string it is when the class mixes in [str] ([None] when the member
    is not a [str] instance). *)
Class PyEnum (E : Type) := {
  members : list E;
  str_of : E → option string;
}.

(** A member, or a value kept as it came. *)
Inductive Resolved (E : Type) : Type :=
  | Member (m : E)
  | Raw (v : PyVal).
Arguments Member {E} m.
Arguments Raw {E} v.

Section Enum.
Context {E : Type} `{PyEnum E}.

(** [isinstance(i, str)] *)
Definition member_is_str (i : E) : bool :=
  match str_of i with Some _ => true | None => false end.

(** [i.lower()] *)
Definition member_lower (i : E) : Result string :=
  match str_of i with
  | Some s => Ok (lower s)
  | None => Raise (AttributeError "lower")
  end.

(** Truth value of a member: a [str]-mixin member follows [str]. *)
Definition member_truthy (i : E) : bool :=
  match str_of i with
  | Some s => negb (String.eqb s "")
  | None => true
  end.

(** [next((i for i in ms if val.lower() == i.lower()), None)]:
    [val.lower()] is evaluated once per visited member. *)
Fixpoint next_match (val : PyVal) (ms : list E) : Result (option E) :=
  match ms with
  | [] => Ok None
  | i :: ms' =>
      a ← py_lower val ;
      b ← member_lower i ;
      if String.eqb a b then Ok (Some i) else next_match val ms'
  end.

Definition _deserialize_enum (val : PyVal) : Result (Resolved E) :=
  if negb (forallb member_is_str members) then Ok (Raw val)
  else
    typ ← next_match val members ;
    match typ with
    | Some i => if member_truthy i then Ok (Member i) else Ok (Raw val)
    | None => Ok (Raw val)
    end.
End Enum.

(** The classes [ValueType.from_value] and [ValueType.from_type] test.
    [CSecret], [CPromptTemplate], [CFilePath] and [CImage] are the wrappers
    of [promptflow.contracts.types] and [promptflow.contracts.multimedia];
    [COther] is any other class. *)
Inductive PyClass : Type :=
  | CInt | CFloat | CBool | CStr | CList
  | CSecret | CPromptTemplate | CFilePath | CImage
  | COther (name : string).

#[global] Instance PyClass_eq_dec : EqDecision PyClass.
Proof. solve_decision. Defined.

(** [type(v)] for plain data. *)
Definition type_of (v : PyVal) : PyClass :=
  match v with
  | VNone => COther "NoneType"
  | VBool _ => CBool
  | VInt _ => CInt
  | VFloat _ => CFloat
  | VStr _ => CStr
  | VList _ => CList
  | VTuple _ => COther "tuple"
  | VDict _ => COther "dict"
  end.

(** [isinstance(v, c)] for plain data: the class of [v] or, for a boolean,
    also [int], of which [bool] is a subclass. *)
Definition instance_of (v : PyVal) (c : PyClass) : bool :=
  bool_decide (type_of v = c) || (is_bool v && bool_decide (c = CInt)).

Module ValueType.
Inductive t : Type :=
  | INT | DOUBLE | BOOL | STRING | SECRET | PROMPT_TEMPLATE
  | LIST | OBJECT | FILE_PATH | IMAGE.

(** [self.value] *)
Definition value (k : t) : string :=
  match k with
  | INT => "int"
  | DOUBLE => "double"
  | BOOL => "bool"
  | STRING => "string"
  | SECRET => "secret"
  | PROMPT_TEMPLATE => "prompt_template"
  | LIST => "list"
  | OBJECT => "object"
  | FILE_PATH => "file_path"
  | IMAGE => "image"
  end.

Definition all : list t :=
  [INT; DOUBLE; BOOL; STRING; SECRET; PROMPT_TEMPLATE;
   LIST; OBJECT; FILE_PATH; IMAGE].

#[global] Instance eq_dec : EqDecision t.
Proof. solve_decision. Defined.

#[global] Instance py_enum : PyEnum t :=
  {| members := all; str_of := λ k, Some (value k) |}.

(** [ValueType(v)]: the member whose value is [v], [ValueError] otherwise. *)
Definition by_value (v : PyVal) : Result t :=
  match v with
  | VStr s =>
      match List.find (λ k, String.eqb (value k) s) all with
      | Some k => Ok k
      | None => Raise (ValueError "is not a valid ValueType" v)
      end
  | _ => Raise (ValueError "is not a valid ValueType" v)
  end.

(** [self.parse(v)] *)
Definition parse `{Builtins} (self : t) (v : PyVal) : Result PyVal :=
  match self with
  | INT => builtin_int v
  | DOUBLE => builtin_float v
  | BOOL =>
      if is_bool v then Ok v
      else
        match v with
        | VStr s =>
            if bool_decide (lower s ∈ ["true"; "false"])
            then Ok (VBool (String.eqb (lower s) "true"))
            else Raise (ValueError "Invalid boolean value" v)
        | _ => Raise (ValueError "Invalid boolean value" v)
        end
  | STRING => Ok (builtin_str v)
  | LIST =>
      v ← match v with
          | VStr s => json.loads s
          | _ => Ok v
          end ;
      if negb (is_list v) then Raise (ValueError "Invalid list value" v)
      else Ok v
  | OBJECT =>
      match v with
      | VStr s =>
          match json.loads s with
          | Ok r => Ok r
          | Raise _ => Ok v
          end
      | _ => Ok v
      end
  | SECRET | PROMPT_TEMPLATE | FILE_PATH | IMAGE => Ok v
  end.

(** [ValueType.from_value(t)].  The function looks at its argument through
    [isinstance] only, so the argument is given by the classes it is an
    instance of. *)
Definition from_value (isinstance : PyClass → bool) : t :=
  if isinstance CSecret then SECRET
  else if isinstance CPromptTemplate then PROMPT_TEMPLATE
  else if isinstance CBool then BOOL
  else if isinstance CInt then INT
  else if isinstance CFloat then DOUBLE
  else if isinstance CStr then STRING
  else if isinstance CList then LIST
  else if isinstance CFilePath then FILE_PATH
  else OBJECT.

(** [ValueType.from_type(t)] on a class. *)
Definition from_type (c : PyClass) : t :=
  if bool_decide (c = CInt) then INT
  else if bool_decide (c = CFloat) then DOUBLE
  else if bool_decide (c = CBool) then BOOL
  else if bool_decide (c = CStr) then STRING
  else if bool_decide (c = CList) then LIST
  else if bool_decide (c = CSecret) then SECRET
  else if bool_decide (c = CPromptTemplate) then PROMPT_TEMPLATE
  else if bool_decide (c = CFilePath) then FILE_PATH
  else if bool_decide (c = CImage) then IMAGE
  else OBJECT.
End ValueType.

Module ToolType.
Inductive t : Type :=
  | LLM | PYTHON | PROMPT | _ACTION | CUSTOM_LLM.

Definition value (k : t) : string :=
  match k with
  | LLM => "llm"
  | PYTHON => "python"
  | PROMPT => "prompt"
  | _ACTION => "action"
  | CUSTOM_LLM => "custom_llm"
  end.

Definition all : list t := [LLM; PYTHON; PROMPT; _ACTION; CUSTOM_LLM].

#[global] Instance eq_dec : EqDecision t.
Proof. solve_decision. Defined.

#[global] Instance py_enum : PyEnum t :=
  {| members := all; str_of := λ k, Some (value k) |}.
End ToolType.


(** ** Dictionaries and dataclasses *)

(** [data[key]] *)
Definition getitem (data : gmap string PyVal) (key : string) : Result PyVal :=
  match data !! key with
  | Some v => Ok v
  | None => Raise (KeyError key)
  end.

(** [data.get(key, dflt)] *)
Definition dict_get (data : gmap string PyVal) (key : string) (dflt : PyVal)
  : PyVal :=
  match data !! key with
  | Some v => v
  | None => dflt
  end.

(** [{k: v for (k, v) in pairs}]: a later pair overwrites an earlier one. *)
Definition dict_of (pairs : list (string * PyVal)) : gmap string PyVal :=
  foldl (λ d kv, <[kv.1 := kv.2]> d) ∅ pairs.

(** [v["key"]] needs a dictionary: on any other plain value a string
    subscript raises [TypeError]. *)
Definition as_dict (v : PyVal) : Result (gmap string PyVal) :=
  match v with
  | VDict d => Ok d
  | _ => Raise (TypeError "subscript")
  end.

(** [v.items()]: only a dictionary has the method. *)
Definition items (v : PyVal) : Result (gmap string PyVal) :=
  match v with
  | VDict d => Ok d
  | _ => Raise (AttributeError "items")
  end.

(** [{k: f(v) for k, v in d.items()}] where [f] may raise.  A finite map
    does not keep the order in which the entries were inserted, so when
    [f] raises on several entries the exception reported here need not be
    the one Python meets first; no statement depends on which it is. *)
Definition dict_comprehension {A} (f : PyVal → Result A)
    (d : gmap string PyVal) : Result (gmap string A) :=
  map_fold (λ k v acc, m ← acc ; r ← f v ; Ok (<[k := r]> m)) (Ok ∅) d.

(** [t.value] on an element of a [type] list: a member has the attribute,
    a value kept as it came has not. *)
Definition value_of (t : Resolved ValueType.t) : Result PyVal :=
  match t with
  | Member k => Ok (VStr (ValueType.value k))
  | Raw _ => Raise (AttributeError "value")
  end.

(** A resolved entry as plain data, as [dataclasses.asdict] copies it. *)
Definition plain {E} (value : E → string) (r : Resolved E) : PyVal :=
  match r with
  | Member m => VStr (value m)
  | Raw v => v
  end.

Module InputDefinition.
Record t : Type := mk {
  type : list (Resolved ValueType.t);
  default : PyVal;
  description : PyVal;
  enum : PyVal;
  custom_type : PyVal;
}.

(** The constructor with the defaults of the optional fields. *)
Definition init (type : list (Resolved ValueType.t)) : t :=
  mk type VNone VNone VNone VNone.

Definition serialize `{Builtins} (self : t) : Result (gmap string PyVal) :=
  let data : gmap string PyVal := ∅ in
  tags ← map_result value_of (type self) ;
  let data := <["type" := VTuple [VList tags]]> data in
  data ← match type self with
         | [t0] => v ← value_of t0 ; Ok (<["type" := v]> data)
         | _ => Ok data
         end ;
  let data :=
    if truthy (default self)
    then <["default" := builtin_str (default self)]> data else data in
  let data :=
    if truthy (description self)
    then <["description" := description self]> data else data in
  let data :=
    if truthy (enum self) then <["enum" := enum self]> data else data in
  let data :=
    if truthy (custom_type self)
    then <["custom_type" := custom_type self]> data else data in
  Ok data.

Definition _deserialize_type (v : PyVal) : Result (list (Resolved ValueType.t)) :=
  let v := match v with VList l => l | _ => [v] end in
  map_result _deserialize_enum v.

Definition deserialize (data : gmap string PyVal) : Result t :=
  ty ← getitem data "type" ;
  type ← _deserialize_type ty ;
  Ok (mk type
        (dict_get data "default" (VStr ""))
        (dict_get data "description" (VStr ""))
        (dict_get data "enum" (VList []))
        VNone).

(** The (name, value) pairs [dataclasses.asdict] hands to its factory. *)
Definition fields (self : t) : list (string * PyVal) :=
  [("type", VList (plain ValueType.value <$> type self));
   ("default", default self);
   ("description", description self);
   ("enum", enum self);
   ("custom_type", custom_type self)].
End InputDefinition.

Module OutputDefinition.
Record t : Type := mk {
  type : list (Resolved ValueType.t);
  description : PyVal;
  is_property : PyVal;
}.

Definition serialize (self : t) : Result (gmap string PyVal) :=
  tags ← map_result value_of (type self) ;
  let data : gmap string PyVal :=
    <["is_property" := is_property self]> (<["type" := VList tags]> ∅) in
  let data :=
    match tags with
    | [tag] => <["type" := tag]> data
    | _ => data
    end in
  let data :=
    if truthy (description self)
    then <["description" := description self]> data else data in
  Ok data.

Definition deserialize (data : gmap string PyVal) : Result t :=
  ty ← getitem data "type" ;
  kinds ← match ty with
          | VList l => map_result ValueType.by_value l
          | _ => k ← ValueType.by_value ty ; Ok [k]
          end ;
  Ok (mk (Member <$> kinds)
        (dict_get data "description" (VStr ""))
        (dict_get data "is_property" (VBool false))).

Definition fields (self : t) : list (string * PyVal) :=
  [("type", VList (plain ValueType.value <$> type self));
   ("description", description self);
   ("is_property", is_property self)].
End OutputDefinition.

Module Tool.
Record t : Type := mk {
  name : PyVal;
  type : Resolved ToolType.t;
  inputs : gmap string InputDefinition.t;
  outputs : option (gmap string OutputDefinition.t);
  description : PyVal;
  module : PyVal;
  class_name : PyVal;
  source : PyVal;
  code : PyVal;
  function : PyVal;
  connection_type : PyVal;
  is_builtin : PyVal;
  stage : PyVal;
}.

(** The factory [serialize] gives to [asdict]:
    [{k: v for (k, v) in x if v is not None and k != "outputs"}]. *)
Definition dict_factory (x : list (string * PyVal)) : gmap string PyVal :=
  dict_of (filter (λ kv, is_not_none kv.2 ∧ kv.1 ≠ "outputs") x).

(** [asdict(self, dict_factory=dict_factory)]: the factory builds the
    dictionary of the tool and of every definition inside it; the
    dictionaries [inputs] and [outputs] are rebuilt key by key. *)
Definition asdict (self : t) : gmap string PyVal :=
  dict_factory
    [("name", name self);
     ("type", plain ToolType.value (type self));
     ("inputs",
       VDict ((λ i, VDict (dict_factory (InputDefinition.fields i)))
                <$> inputs self));
     ("outputs",
       match outputs self with
       | Some os =>
           VDict ((λ o, VDict (dict_factory (OutputDefinition.fields o)))
                    <$> os)
       | None => VNone
       end);
     ("description", description self);
     ("module", module self);
     ("class_name", class_name self);
     ("source", source self);
     ("code", code self);
     ("function", function self);
     ("connection_type", connection_type self);
     ("is_builtin", is_builtin self);
     ("stage", stage self)].

(** [self.type == ToolType._ACTION]: equality of a [str]-mixin member is
    equality of strings. *)
Definition is_action (ty : Resolved ToolType.t) : bool :=
  match ty with
  | Member k => bool_decide (k = ToolType._ACTION)
  | Raw (VStr s) => String.eqb s (ToolType.value ToolType._ACTION)
  | Raw _ => false
  end.

Definition skipped_fields : list string := ["type"; "inputs"; "outputs"].

Definition serialize (self : t) : gmap string PyVal :=
  let data := asdict self in
  if negb (is_action (type self)) then data
  else filter (λ kv, kv.1 ∉ skipped_fields) data.

(** [self.type is ToolType.LLM or
     isinstance(self.connection_type, list) and len(self.connection_type) > 0] *)
Definition _require_connection (self : t) : bool :=
  match type self with
  | Member ToolType.LLM => true
  | _ =>
      match connection_type self with
      | VList l => 0 <? length l
      | _ => false
      end
  end.

(** The arguments of the call are evaluated in the order they are written:
    [name], [description], [type], [inputs], [outputs], then the optional
    fields. *)
Definition deserialize (data : gmap string PyVal) : Result t :=
  name ← getitem data "name" ;
  let description := dict_get data "description" (VStr "") in
  ty ← getitem data "type" ;
  type ← _deserialize_enum ty ;
  ins ← items (dict_get data "inputs" (VDict ∅)) ;
  inputs ← dict_comprehension
              (λ i, d ← as_dict i ; InputDefinition.deserialize d) ins ;
  outs ← items (dict_get data "outputs" (VDict ∅)) ;
  outputs ← dict_comprehension
               (λ o, d ← as_dict o ; OutputDefinition.deserialize d) outs ;
  Ok (mk name type inputs (Some outputs) description
        (dict_get data "module" VNone)
        (dict_get data "class_name" VNone)
        (dict_get data "source" VNone)
        (dict_get data "code" VNone)
        (dict_get data "function" VNone)
        (dict_get data "connection_type" VNone)
        (dict_get data "is_builtin" VNone)
        (dict_get data "stage" VNone)).
End Tool.

(** ** Vocabulary of the statements *)

(** The double quote, and a text between double quotes. *)
Definition dq : string := String "034" "".
Definition quoted (s : string) : string := dq +:+ s +:+ dq.



(** A member matches a candidate string when the member is a string and the
    two agree case-insensitively. *)
Definition matches {E} `{PyEnum E} (s : string) (m : E) : Prop :=
  ∃ t, str_of m = Some t ∧ ci_eq s t.

(** The elements of a [type] entry on the wire: the entries of a list, or
    the value itself. *)
Definition wire_elements (ty : PyVal) : list PyVal :=
  match ty with
  | VList l => l
  | _ => [ty]
  end.

(** The tags of a list of kinds. *)
Definition tags (kinds : list ValueType.t) : list PyVal :=
  (λ k, VStr (ValueType.value k)) <$> kinds.

(** The ["type"] entry a definition is meant to have on the wire: the tag
    alone when there is one kind, the list of tags otherwise. *)
Definition type_on_wire (kinds : list ValueType.t) : PyVal :=
  match kinds with
  | [k] => VStr (ValueType.value k)
  | _ => VList (tags kinds)
  end.

(** A tool of the action kind that declares an input, an output and a
    connection type. *)
Definition action_tool : Tool.t :=
  Tool.mk (VStr "echo") (Member ToolType._ACTION)
    {["text" := InputDefinition.init [Member ValueType.STRING]]}
    (Some {["result" := OutputDefinition.mk [Member ValueType.STRING]
                          (VStr "") (VBool false)]})
    (VStr "Echo the input") VNone VNone (VStr "echo.py") VNone (VStr "echo")
    (VList [VStr "CustomConnection"]) (VBool false) VNone.

(** The values [_deserialize_enum] returns on an enumeration of strings
    with tags [value]: a member, or a string that matches no tag. *)
Definition resolved {E} (value : E → string) (r : Resolved E) : Prop :=
  match r with
  | Member _ => True
  | Raw (VStr s) => ∀ k, ¬ ci_eq s (value k)
  | Raw _ => False
  end.

(** A wire element that is a string matching the tag of a [ValueType]
    member. *)
Definition registered (e : PyVal) : Prop :=
  ∃ s k, e = VStr s ∧ ci_eq s (ValueType.value k).

(** [v if v is not None else dflt]: what reading a key with a default gives
    for a field that was written only when it was not [None]. *)
Definition or_default (v dflt : PyVal) : PyVal :=
  if is_not_none v then v else dflt.

(** An input definition as [InputDefinition.deserialize] reads it back from
    the dictionary [asdict] makes of it. *)
Definition reread_input (i : InputDefinition.t) : InputDefinition.t :=
  InputDefinition.mk (InputDefinition.type i)
    (or_default (InputDefinition.default i) (VStr ""))
    (or_default (InputDefinition.description i) (VStr ""))
    (or_default (InputDefinition.enum i) (VList []))
    VNone.

(** A tool as [Tool.deserialize] reads it back from [Tool.serialize]. *)
Definition reread_tool (t : Tool.t) : Tool.t :=
  Tool.mk (Tool.name t) (Tool.type t)
    (reread_input <$> Tool.inputs t)
    (Some ∅)
    (or_default (Tool.description t) (VStr ""))
    (Tool.module t) (Tool.class_name t) (Tool.source t) (Tool.code t)
    (Tool.function t) (Tool.connection_type t) (Tool.is_builtin t)
    (Tool.stage t).

(** The (name, value) pairs [asdict] hands to the factory for a tool. *)
Definition tool_fields (self : Tool.t) : list (string * PyVal) :=
  [("name", Tool.name self);
   ("type", plain ToolType.value (Tool.type self));
   ("inputs",
     VDict ((λ i, VDict (Tool.dict_factory (InputDefinition.fields i)))
              <$> Tool.inputs self));
   ("outputs",
     match Tool.outputs self with
     | Some os =>
         VDict ((λ o, VDict (Tool.dict_factory (OutputDefinition.fields o)))
                  <$> os)
     | None => VNone
     end);
   ("description", Tool.description self);
   ("module", Tool.module self);
   ("class_name", Tool.class_name self);
   ("source", Tool.source self);
   ("code", Tool.code self);
   ("function", Tool.function self);
   ("connection_type", Tool.connection_type self);
   ("is_builtin", Tool.is_builtin self);
   ("stage", Tool.stage self)].

(** The keys [Tool.serialize] may write. *)
Definition tool_keys : list string :=
  ["name"; "type"; "inputs"; "description"; "module"; "class_name";
   "source"; "code"; "function"; "connection_type"; "is_builtin"; "stage"].

(** An [llm] tool with one input of two kinds and a connection type. *)
Definition chat_tool : Tool.t :=
  Tool.mk (VStr "chat") (Member ToolType.LLM)
    {["prompt" := InputDefinition.init
                    [Member ValueType.STRING; Member ValueType.LIST]]}
    None VNone VNone VNone (VStr "chat.py") VNone (VStr "chat")
    (VList [VStr "AzureOpenAIConnection"]) VNone VNone.

(** The plain data of an [llm] tool, its tags in upper or mixed case. *)
Definition llm_data : gmap string PyVal :=
  <["connection_type" := VList [VStr "AzureOpenAIConnection"]]>
    (<["inputs" := VDict {["prompt" := VDict {["type" := VStr "String"]}]}]>
       (<["type" := VStr "LLM"]> {["name" := VStr "chat"]})).

(** The tool [Tool.deserialize] makes of [llm_data]. *)
Definition llm_tool : Tool.t :=
  Tool.mk (VStr "chat") (Member ToolType.LLM)
    {["prompt" := InputDefinition.mk [Member ValueType.STRING]
                    (VStr "") (VStr "") (VList []) VNone]}
    (Some ∅) (VStr "") VNone VNone VNone VNone VNone
    (VList [VStr "AzureOpenAIConnection"]) VNone VNone.

(** ** Properties *)

Lemma bind_Ok {A B} (r : Result A) (k : A → Result B) (b : B) :
  (x ← r ; k x) = Ok b ↔ ∃ a, r = Ok a ∧ k a = Ok b.
Proof.
  destruct r as [a|e]; simpl.
  - split; [eauto | intros (a' & [= <-] & ?); done].
  - split; [done | intros (a' & ? & ?); done].
Qed.

Lemma map_result_Ok_length {A B} (f : A → Result B) (l : list A) (l' : list B) :
  map_result f l = Ok l' → length l' = length l.
Proof.
  revert l'. induction l as [|x l IH]; intros l'; simpl.
  - by intros [= <-].
  - destruct (f x) as [y|]; [|done]. simpl.
    destruct (map_result f l) as [ys|]; [|done]. simpl.
    intros [= <-]. simpl. f_equal. by apply IH.
Qed.

Lemma map_result_Ok_inv {A B} (f : A → Result B) (l : list A) (l' : list B) :
  map_result f l = Ok l' → Forall2 (λ x y, f x = Ok y) l l'.
Proof.
  revert l'. induction l as [|x l IH]; intros l'; simpl.
  - intros [= <-]. constructor.
  - destruct (f x) as [y|] eqn:Hy; [|done]. simpl.
    destruct (map_result f l) as [ys|]; [|done]. simpl.
    intros [= <-]. constructor; auto.
Qed.

Lemma map_result_Raise {A B} (f : A → Result B) (l : list A) (x : A) :
  x ∈ l → raises (f x) → raises (map_result f l).
Proof.
  intros Hx [e He]. induction l as [|y l IH]; [by apply elem_of_nil in Hx|].
  simpl. destruct (f y) as [b|e'] eqn:Hy; [|by eexists]. simpl.
  apply elem_of_cons in Hx as [->|Hx]; [congruence|].
  destruct (IH Hx) as [e'' ->]. by eexists.
Qed.

(** *** The tolerant resolution of enumeration members *)

Section EnumFacts.
Context {E : Type} `{PyEnum E}.

Lemma member_lower_str (m : E) :
  member_is_str m = true → ∃ t, str_of m = Some t ∧ member_lower m = Ok (lower t).
Proof.
  unfold member_is_str, member_lower. destruct (str_of m) as [t|]; [eauto|done].
Qed.

Lemma next_match_none (s : string) (ms : list E) :
  forallb member_is_str ms = true →
  (∀ m, m ∈ ms → ¬ matches s m) →
  next_match (VStr s) ms = Ok None.
Proof.
  induction ms as [|i ms IH]; intros Hstr Hno; [done|].
  simpl in Hstr. apply andb_prop in Hstr as [Hi Hms].
  destruct (member_lower_str i Hi) as (t & Ht & Hl).
  simpl. rewrite Hl. simpl.
  destruct (String.eqb_spec (lower s) (lower t)) as [Heq|_].
  - exfalso. apply (Hno i); [set_solver|]. by exists t.
  - apply IH; [done|]. intros m Hm. apply Hno. set_solver.
Qed.

Lemma next_match_first (s : string) (pre post : list E) (m : E) :
  forallb member_is_str (pre ++ m :: post) = true →
  (∀ m', m' ∈ pre → ¬ matches s m') →
  matches s m →
  next_match (VStr s) (pre ++ m :: post) = Ok (Some m).
Proof.
  induction pre as [|i pre IH]; intros Hstr Hno (t & Ht & Hm).
  - simpl. unfold member_lower. rewrite Ht. simpl.
    unfold ci_eq in Hm. rewrite Hm, String.eqb_refl. done.
  - simpl in Hstr. apply andb_prop in Hstr as [Hi Hms].
    destruct (member_lower_str i Hi) as (t' & Ht' & Hl).
    simpl. rewrite Hl. simpl.
    destruct (String.eqb_spec (lower s) (lower t')) as [Heq|_].
    + exfalso. apply (Hno i); [set_solver|]. by exists t'.
    + apply IH; [done| |by exists t]. intros m' Hm'. apply Hno. set_solver.
Qed.

Lemma next_match_total (s : string) (ms : list E) :
  forallb member_is_str ms = true → succeeds (next_match (VStr s) ms).
Proof.
  induction ms as [|i ms IH]; intros Hstr; [by eexists|].
  simpl in Hstr. apply andb_prop in Hstr as [Hi Hms].
  destruct (member_lower_str i Hi) as (t' & Ht' & Hl).
  simpl. rewrite Hl. simpl.
  destruct (String.eqb (lower s) (lower t')); [by eexists|auto].
Qed.

Lemma next_match_Some (s : string) (ms : list E) (i : E) :
  next_match (VStr s) ms = Ok (Some i) → matches s i.
Proof.
  induction ms as [|j ms IH]; [done|]. simpl. unfold member_lower.
  destruct (str_of j) as [t|] eqn:Ht; [|done]. simpl.
  destruct (String.eqb_spec (lower s) (lower t)) as [Heq|_]; [|done].
  intros [= <-]. by exists t.
Qed.

Lemma lower_empty (s : string) : lower s = "" → s = "".
Proof. by destruct s. Qed.

Lemma matches_nonempty (s : string) (m : E) :
  matches s m → s ≠ "" → member_truthy m = true.
Proof.
  intros (t & Ht & Hm) Hs. unfold member_truthy. rewrite Ht.
  destruct (String.eqb_spec t "") as [->|]; [|done].
  exfalso. apply Hs, lower_empty. apply Hm.
Qed.
(** The helper on a candidate that is a string. *)
Lemma deserialize_enum_string (s : string) :
  forallb member_is_str members = true →
  succeeds (_deserialize_enum (E:=E) (VStr s)) ∧
  (∀ pre m post,
     members = pre ++ m :: post →
     (∀ m', m' ∈ pre → ¬ matches s m') →
     matches s m → s ≠ "" →
     _deserialize_enum (VStr s) = Ok (Member m)) ∧
  ((∀ m : E, m ∈ members → ¬ matches s m) →
     _deserialize_enum (E:=E) (VStr s) = Ok (Raw (VStr s))) ∧
  (s = "" → _deserialize_enum (E:=E) (VStr s) = Ok (Raw (VStr s))).
Proof.
  intros Hstr. unfold _deserialize_enum. rewrite Hstr. simpl.
  split_and!.
  - destruct (next_match_total s members Hstr) as [[i|] ->]; simpl.
    + destruct (member_truthy i); by eexists.
    + by eexists.
  - intros pre m post Hms Hpre Hm Hs.
    rewrite Hms in Hstr |- *.
    rewrite (next_match_first s pre post m Hstr Hpre Hm). simpl.
    by rewrite (matches_nonempty s m Hm Hs).
  - intros Hno. by rewrite (next_match_none s members Hstr Hno).
  - intros ->.
    destruct (next_match_total "" members Hstr) as [[i|] Hn];
      rewrite Hn; simpl; [|done].
    apply next_match_Some in Hn as (t & Ht & Hm).
    unfold member_truthy. rewrite Ht.
    symmetry in Hm. apply lower_empty in Hm. by subst t.
Qed.

(** An enumeration with a member that is not a string: the candidate comes
    back unchanged, whatever it is. *)
Lemma deserialize_enum_not_str (val : PyVal) :
  forallb member_is_str members = false →
  _deserialize_enum (E:=E) val = Ok (Raw val).
Proof. intros Hstr. unfold _deserialize_enum. by rewrite Hstr. Qed.
End EnumFacts.

Lemma ValueType_resolve (s : string) (k : ValueType.t) :
  ci_eq s (ValueType.value k) → _deserialize_enum (VStr s) = Ok (Member k).
Proof.
  unfold ci_eq, _deserialize_enum. intros Hs. simpl. rewrite Hs.
  by destruct k.
Qed.

Lemma ToolType_resolve (s : string) (k : ToolType.t) :
  ci_eq s (ToolType.value k) → _deserialize_enum (VStr s) = Ok (Member k).
Proof.
  unfold ci_eq, _deserialize_enum. intros Hs. simpl. rewrite Hs.
  by destruct k.
Qed.





(** *** Coercion of raw values *)

Lemma parse_BOOL_str `{Builtins} (s : string) :
  ValueType.parse ValueType.BOOL (VStr s) =
    if bool_decide (ci_eq s "true" ∨ ci_eq s "false")
    then Ok (VBool (bool_decide (ci_eq s "true")))
    else Raise (ValueError "Invalid boolean value" (VStr s)).
Proof.
  unfold ValueType.parse. cbn [is_bool].
  assert (Hin : lower s ∈ ["true"; "false"] ↔ ci_eq s "true" ∨ ci_eq s "false").
  { rewrite !elem_of_cons, elem_of_nil. unfold ci_eq.
    change (lower "true") with "true". change (lower "false") with "false".
    tauto. }
  assert (Heqb : String.eqb (lower s) "true" = bool_decide (ci_eq s "true")).
  { unfold ci_eq. change (lower "true") with "true".
    destruct (String.eqb_spec (lower s) "true");
      [by rewrite bool_decide_eq_true_2|by rewrite bool_decide_eq_false_2]. }
  rewrite Heqb.
  destruct (decide (ci_eq s "true" ∨ ci_eq s "false")) as [Hd|Hd].
  - rewrite (bool_decide_eq_true_2 _ Hd).
    by rewrite bool_decide_eq_true_2 by (by apply Hin).
  - rewrite (bool_decide_eq_false_2 _ Hd).
    by rewrite bool_decide_eq_false_2 by (by rewrite Hin).
Qed.

(** C7.  [ValueType.BOOL.parse] returns a boolean unchanged, returns
    True (False) for a string that equals "true" ("false")
    case-insensitively, and raises the "Invalid boolean value" error on
    every other input and on no other: [parse("TRUE")] is True and
    [parse("maybe")] raises. *)
Theorem C7_bool_parse (B : Builtins) :
  (∀ b, ValueType.parse ValueType.BOOL (VBool b) = Ok (VBool b)) ∧
  (∀ s, ci_eq s "true" →
     ValueType.parse ValueType.BOOL (VStr s) = Ok (VBool true)) ∧
  (∀ s, ci_eq s "false" →
     ValueType.parse ValueType.BOOL (VStr s) = Ok (VBool false)) ∧
  (∀ v, (∀ b, v ≠ VBool b) →
     (∀ s, v = VStr s → ¬ ci_eq s "true" ∧ ¬ ci_eq s "false") →
     ValueType.parse ValueType.BOOL v
       = Raise (ValueError "Invalid boolean value" v)) ∧
  (∀ v, raises (ValueType.parse ValueType.BOOL v) ↔
     (∀ b, v ≠ VBool b) ∧
     (∀ s, v = VStr s → ¬ ci_eq s "true" ∧ ¬ ci_eq s "false")) ∧
  ValueType.parse ValueType.BOOL (VStr "TRUE") = Ok (VBool true) ∧
  ValueType.parse ValueType.BOOL (VStr "maybe")
    = Raise (ValueError "Invalid boolean value" (VStr "maybe")).
Proof.
  assert (Hother : ∀ v, (∀ b, v ≠ VBool b) →
     (∀ s, v = VStr s → ¬ ci_eq s "true" ∧ ¬ ci_eq s "false") →
     ValueType.parse ValueType.BOOL v
       = Raise (ValueError "Invalid boolean value" v)).
  { intros v Hb Hs. destruct v as [|b|n|f|s|l|l|d]; try done.
    - by destruct (Hb b).
    - rewrite parse_BOOL_str. destruct (Hs s eq_refl) as [Ht Hf].
      rewrite bool_decide_eq_false_2; [done|]. by intros [?|?]. }
  split; [done|].
  split.
  { intros s Hs. rewrite parse_BOOL_str.
    rewrite !bool_decide_eq_true_2; auto. }
  split.
  { intros s Hs. rewrite parse_BOOL_str.
    rewrite bool_decide_eq_true_2 by auto.
    rewrite bool_decide_eq_false_2; [done|].
    unfold ci_eq in *. rewrite Hs. discriminate. }
  split; [exact Hother|].
  split; [|done].
  intros v. split.
  - intros [e He]. split.
    + intros b ->. discriminate He.
    + intros s ->. rewrite parse_BOOL_str in He.
      destruct (decide (ci_eq s "true" ∨ ci_eq s "false")) as [Hd|Hd].
      * by rewrite bool_decide_eq_true_2 in He.
      * split; intros ?; apply Hd; auto.
  - intros [Hb Hs]. rewrite (Hother v Hb Hs). by eexists.
Qed.

(** C8.  [ValueType.LIST.parse] on a string decodes it as JSON first: a
    decoding failure is the failure of [parse], a decoded value that is not
    a list raises the "Invalid list value" error, and a decoded list is
    returned.  A list is returned as it is, and every input that is
    neither a string nor a list raises the same error. *)
Theorem C8_list_parse (B : Builtins) :
  (∀ s e, json.loads s = Raise e →
     ValueType.parse ValueType.LIST (VStr s) = Raise e) ∧
  (∀ s v, json.loads s = Ok v → is_list v = false →
     ValueType.parse ValueType.LIST (VStr s)
       = Raise (ValueError "Invalid list value" v)) ∧
  (∀ s l, json.loads s = Ok (VList l) →
     ValueType.parse ValueType.LIST (VStr s) = Ok (VList l)) ∧
  (∀ l, ValueType.parse ValueType.LIST (VList l) = Ok (VList l)) ∧
  (∀ v, is_str v = false → is_list v = false →
     ValueType.parse ValueType.LIST v
       = Raise (ValueError "Invalid list value" v)) ∧
  ValueType.parse ValueType.LIST
      (VStr ("[" +:+ quoted "a" +:+ "," +:+ quoted "b" +:+ "]"))
    = Ok (VList [VStr "a"; VStr "b"]) ∧
  raises (json.loads "not json") ∧
  raises (ValueType.parse ValueType.LIST (VStr "not json")).
Proof.
  split_and!.
  - intros s e He. simpl. by rewrite He.
  - intros s v Hv Hl. simpl. rewrite Hv. simpl. by rewrite Hl.
  - intros s l Hl. simpl. by rewrite Hl.
  - intros l. reflexivity.
  - intros v Hs Hl. by destruct v.
  - by vm_compute.
  - eexists. by vm_compute.
  - eexists. by vm_compute.
Qed.

(** C9.  [ValueType.OBJECT.parse] returns a value on every input: the
    decoded value for a string that is valid JSON, the string itself when
    decoding fails, and any other input unchanged. *)
Theorem C9_object_parse_total (B : Builtins) :
  (∀ v, succeeds (ValueType.parse ValueType.OBJECT v)) ∧
  (∀ s r, json.loads s = Ok r →
     ValueType.parse ValueType.OBJECT (VStr s) = Ok r) ∧
  (∀ s, raises (json.loads s) →
     ValueType.parse ValueType.OBJECT (VStr s) = Ok (VStr s)) ∧
  (∀ v, is_str v = false → ValueType.parse ValueType.OBJECT v = Ok v) ∧
  raises (json.loads "plain text") ∧
  ValueType.parse ValueType.OBJECT (VStr "plain text") = Ok (VStr "plain text").
Proof.
  split_and!.
  - intros v. destruct v as [| | | |s| | |]; try by eexists.
    simpl. destruct (json.loads s); by eexists.
  - intros s r Hr. simpl. by rewrite Hr.
  - intros s [e He]. simpl. by rewrite He.
  - intros v Hs. by destruct v.
  - eexists. by vm_compute.
  - by vm_compute.
Qed.

(** *** Tools *)

(** C10.  A tool requires a connection exactly when its type is the [llm]
    member or its [connection_type] is a non-empty list. *)
Theorem C10_require_connection (tool : Tool.t) :
  Tool._require_connection tool = true ↔
    Tool.type tool = Member ToolType.LLM ∨
    ∃ l, Tool.connection_type tool = VList l ∧ l ≠ [].
Proof.
  unfold Tool._require_connection.
  destruct (Tool.type tool) as [[]|v] eqn:Hty;
    destruct (Tool.connection_type tool) as [| | | | |[|x l]| |] eqn:Hct;
    simpl; split; try done; auto;
    try (intros [[=]|(l' & [=] & Hne)]; subst; done);
    try (intros _; right; eexists; split; [done|discriminate]).
Qed.

Lemma dict_of_lookup_None (pairs : list (string * PyVal)) (k : string) :
  k ∉ pairs.*1 → dict_of pairs !! k = None.
Proof.
  unfold dict_of.
  assert (Hgen : ∀ d : gmap string PyVal,
            k ∉ pairs.*1 → foldl (λ d kv, <[kv.1 := kv.2]> d) d pairs !! k = d !! k).
  { induction pairs as [|[k' v] pairs IH]; intros d Hk; [done|].
    simpl in *. apply not_elem_of_cons in Hk as [Hne Hk].
    rewrite IH by done. by rewrite lookup_insert_ne. }
  intros Hk. by rewrite Hgen.
Qed.

Lemma dict_factory_no_outputs (x : list (string * PyVal)) :
  Tool.dict_factory x !! "outputs" = None.
Proof.
  apply dict_of_lookup_None. intros Hin.
  apply list_elem_of_fmap in Hin as ([k v] & Hk & Hin). simpl in Hk. subst k.
  apply list_elem_of_filter in Hin as [[_ Hne] _]. by apply Hne.
Qed.

Lemma serialize_action_skips (tool : Tool.t) (k : string) :
  Tool.is_action (Tool.type tool) = true → k ∈ Tool.skipped_fields →
  Tool.serialize tool !! k = None.
Proof.
  intros Hact Hk. unfold Tool.serialize. rewrite Hact. simpl.
  apply map_lookup_filter_None. right. intros v _ Hnot. by apply Hnot.
Qed.

(** C6.  The mapping [Tool.serialize] returns never has the key
    ["outputs"], and for a tool of the action kind it has neither ["type"]
    nor ["inputs"], whatever the fields hold. *)
Theorem C6_tool_serialize_keys (tool : Tool.t) :
  Tool.serialize tool !! "outputs" = None ∧
  (Tool.type tool = Member ToolType._ACTION →
     Tool.serialize tool !! "type" = None ∧
     Tool.serialize tool !! "inputs" = None).
Proof.
  split.
  - destruct (Tool.is_action (Tool.type tool)) eqn:Hact.
    + apply serialize_action_skips; [done|]. set_solver.
    + unfold Tool.serialize. rewrite Hact. simpl.
      apply dict_factory_no_outputs.
  - intros Hty.
    assert (Hact : Tool.is_action (Tool.type tool) = true) by by rewrite Hty.
    split; (apply serialize_action_skips; [done|set_solver]).
Qed.

Lemma C6_witness :
  Tool.serialize action_tool !! "type" = None ∧
  Tool.serialize action_tool !! "inputs" = None.
Proof.
  apply (proj2 (C6_tool_serialize_keys action_tool)). reflexivity.
Defined.

(** *** Input definitions *)

Lemma getitem_Ok (data : gmap string PyVal) (key : string) (v : PyVal) :
  getitem data key = Ok v ↔ data !! key = Some v.
Proof.
  unfold getitem. destruct (data !! key); split; intros [=]; by subst.
Qed.

Lemma deserialize_type_length (ty : PyVal) (l : list (Resolved ValueType.t)) :
  InputDefinition._deserialize_type ty = Ok l →
  length l = length (wire_elements ty).
Proof.
  unfold InputDefinition._deserialize_type, wire_elements.
  apply map_result_Ok_length.
Qed.

(** C5, as the code has it.  When [InputDefinition.deserialize] succeeds,
    the [type] list of the result has one entry per element of the ["type"]
    entry on the wire; it is non-empty unless that entry is the empty
    list. *)
Theorem C5_type_length (data : gmap string PyVal) (d : InputDefinition.t) :
  InputDefinition.deserialize data = Ok d →
  ∃ ty, data !! "type" = Some ty ∧
        length (InputDefinition.type d) = length (wire_elements ty) ∧
        (ty ≠ VList [] → InputDefinition.type d ≠ []).
Proof.
  unfold InputDefinition.deserialize. intros Hd.
  apply bind_Ok in Hd as (ty & Hty & Hd).
  apply bind_Ok in Hd as (l & Hl & [= <-]). simpl.
  apply getitem_Ok in Hty. apply deserialize_type_length in Hl.
  exists ty. split_and!; [done..|].
  intros Hne ->. simpl in Hl.
  destruct ty as [| | | | |[|x xs]| |]; simpl in Hl; done.
Qed.

Lemma C5_witness :
  ∃ ty, ({["type" := VStr "string"]} : gmap string PyVal) !! "type" = Some ty ∧
        length [Member ValueType.STRING] = length (wire_elements ty) ∧
        (ty ≠ VList [] → [Member ValueType.STRING] ≠ []).
Proof.
  apply (C5_type_length {["type" := VStr "string"]}
           (InputDefinition.mk [Member ValueType.STRING]
              (VStr "") (VStr "") (VList []) VNone)).
  reflexivity.
Defined.

(** C5 as stated fails: an empty ["type"] list is accepted and gives a
    definition with no type. *)
Lemma C5_counterexample :
  ¬ (∀ d, InputDefinition.deserialize {["type" := VList []]} = Ok d →
          InputDefinition.type d ≠ []).
Proof.
  intros Hclaim.
  by apply (Hclaim (InputDefinition.mk [] (VStr "") (VStr "") (VList []) VNone)).
Qed.

(** *** Output definitions *)

Lemma by_value_Ok (v : PyVal) (k : ValueType.t) :
  ValueType.by_value v = Ok k ↔ v = VStr (ValueType.value k).
Proof.
  split.
  - unfold ValueType.by_value. destruct v as [| | | |s| | |]; try done.
    destruct (find _ _) as [k'|] eqn:Hfind; [|done].
    intros [= ->]. apply find_some in Hfind as [_ Heq].
    apply String.eqb_eq in Heq. by rewrite Heq.
  - intros ->. by destruct k.
Qed.

Lemma by_value_Raise (v : PyVal) (e : Exc) :
  ValueType.by_value v = Raise e → e = ValueError "is not a valid ValueType" v.
Proof.
  unfold ValueType.by_value. destruct v as [| | | |s| | |]; try by intros [= <-].
  destruct (find _ _); [done|]. by intros [= <-].
Qed.

Lemma map_by_value_Ok (l : list PyVal) (kinds : list ValueType.t) :
  map_result ValueType.by_value l = Ok kinds →
  l = tags kinds.
Proof.
  intros Hl. apply map_result_Ok_inv in Hl.
  induction Hl as [|v k l kinds Hv _ IH]; [done|].
  apply by_value_Ok in Hv. simpl. by rewrite Hv, IH.
Qed.

Lemma map_by_value_Raise (l : list PyVal) (e : Exc) :
  map_result ValueType.by_value l = Raise e →
  ∃ v, e = ValueError "is not a valid ValueType" v.
Proof.
  induction l as [|x l IH]; [done|]. simpl.
  destruct (ValueType.by_value x) as [k|e'] eqn:Hx; simpl.
  - destruct (map_result ValueType.by_value l) as [ks|e'']; [done|].
    simpl. intros [= <-]. by apply IH.
  - intros [= <-]. exists x. by apply by_value_Raise.
Qed.

(** C3, as the code has it.  [OutputDefinition.deserialize] resolves the
    elements of ["type"] with the enumeration's own lookup: when it
    succeeds every element is exactly the tag of a [ValueType] member and
    the result holds these members; an element that is not exactly a tag
    (an unknown name, or a tag in another case) makes it raise a
    [ValueError]. *)
Theorem C3_output_deserialize_strict (data : gmap string PyVal) :
  (∀ od, OutputDefinition.deserialize data = Ok od →
     ∃ ty kinds,
       data !! "type" = Some ty ∧
       wire_elements ty = tags kinds ∧
       OutputDefinition.type od = Member <$> kinds) ∧
  (∀ ty e,
     data !! "type" = Some ty → e ∈ wire_elements ty →
     (∀ k, e ≠ VStr (ValueType.value k)) →
     ∃ v, OutputDefinition.deserialize data
            = Raise (ValueError "is not a valid ValueType" v)).
Proof.
  split.
  - intros od Hd. unfold OutputDefinition.deserialize in Hd.
    apply bind_Ok in Hd as (ty & Hty & Hd).
    apply bind_Ok in Hd as (kinds & Hk & [= <-]). simpl.
    apply getitem_Ok in Hty. exists ty, kinds. split_and!; [done| |done].
    destruct ty as [| | | | |l| |]; simpl;
      try (apply bind_Ok in Hk as (k & Hk & [= <-]);
           apply by_value_Ok in Hk; by rewrite Hk).
    by apply map_by_value_Ok.
  - intros ty e Hty He Hno. unfold OutputDefinition.deserialize.
    apply getitem_Ok in Hty. rewrite Hty. cbn [mbind result_bind].
    assert (Hraise : raises (ValueType.by_value e)).
    { destruct (ValueType.by_value e) as [k|e'] eqn:Hk; [|by eexists].
      apply by_value_Ok in Hk. by destruct (Hno k). }
    destruct ty as [| | | | |l| |]; cbn [wire_elements] in He.
    6: { destruct (map_result_Raise _ _ _ He Hraise) as [e' He'].
         rewrite He'. apply map_by_value_Raise in He' as [v ->]. by eexists. }
    all: apply list_elem_of_singleton in He; subst e;
      destruct Hraise as [e' He']; rewrite He';
      apply by_value_Raise in He'; subst e'; by eexists.
Qed.

Lemma C3_witness :
  ∃ ty kinds,
    ({["type" := VList [VStr "string"; VStr "list"]]} : gmap string PyVal)
      !! "type" = Some ty ∧
    wire_elements ty = tags kinds ∧
    [Member ValueType.STRING; Member ValueType.LIST] = Member <$> kinds.
Proof.
  apply (proj1 (C3_output_deserialize_strict
                  {["type" := VList [VStr "string"; VStr "list"]]})
           (OutputDefinition.mk [Member ValueType.STRING; Member ValueType.LIST]
              (VStr "") (VBool false))).
  reflexivity.
Defined.

(** C3 as stated fails: the name of a connection type matches no
    [ValueType] tag, and instead of keeping it [OutputDefinition.deserialize]
    raises. *)
Lemma C3_counterexample :
  ¬ ((∀ k, ¬ ci_eq "CustomConnection" (ValueType.value k)) →
     ∃ od, OutputDefinition.deserialize {["type" := VStr "CustomConnection"]}
             = Ok od ∧
           Raw (VStr "CustomConnection") ∈ OutputDefinition.type od).
Proof.
  intros Hclaim. destruct Hclaim as (od & Hod & _).
  - intros k. unfold ci_eq. by destruct k.
  - discriminate Hod.
Qed.

(** *** The round trip of input definitions *)

Lemma value_of_members (kinds : list ValueType.t) :
  map_result value_of (Member <$> kinds) = Ok (tags kinds).
Proof.
  induction kinds as [|k kinds IH]; [done|].
  rewrite fmap_cons. cbn [map_result value_of mbind result_bind].
  by rewrite IH.
Qed.

(** What [InputDefinition.serialize] writes for a definition whose kinds
    are all members. *)
Lemma serialize_members `{Builtins} (kinds : list ValueType.t)
    (dflt desc en ct : PyVal) :
  ∃ data,
    InputDefinition.serialize
      (InputDefinition.mk (Member <$> kinds) dflt desc en ct) = Ok data ∧
    data !! "type" =
      Some (match kinds with
            | [_] => type_on_wire kinds
            | _ => VTuple [type_on_wire kinds]
            end) ∧
    data !! "default" = (if truthy dflt then Some (builtin_str dflt) else None) ∧
    data !! "description" = (if truthy desc then Some desc else None) ∧
    data !! "enum" = (if truthy en then Some en else None) ∧
    data !! "custom_type" = (if truthy ct then Some ct else None).
Proof.
  unfold InputDefinition.serialize. cbn [InputDefinition.type].
  rewrite value_of_members. cbn [mbind result_bind].
  cbn [InputDefinition.default InputDefinition.description
       InputDefinition.enum InputDefinition.custom_type].
  destruct kinds as [|k [|k' kinds]]; cbn [fmap list_fmap value_of mbind result_bind];
    (eexists; split; [reflexivity|]);
    destruct (truthy dflt), (truthy desc), (truthy en), (truthy ct);
    split_and!; by simplify_map_eq.
Qed.

(** The sibling [OutputDefinition.serialize] writes the entry as it is
    meant to be: the tag alone for one kind, the list of tags otherwise. *)
Lemma output_serialize_type_entry (kinds : list ValueType.t) (desc prop : PyVal) :
  ∃ data,
    OutputDefinition.serialize
      (OutputDefinition.mk (Member <$> kinds) desc prop) = Ok data ∧
    data !! "type" = Some (type_on_wire kinds).
Proof.
  unfold OutputDefinition.serialize. cbn [OutputDefinition.type].
  rewrite value_of_members. cbn [mbind result_bind].
  cbn [OutputDefinition.description OutputDefinition.is_property].
  destruct kinds as [|k [|k' kinds]]; cbn [tags fmap list_fmap];
    (eexists; split; [reflexivity|]);
    destruct (truthy desc); by simplify_map_eq.
Qed.

(** C2, on the code.  For a definition whose kinds are all members,
    [InputDefinition.serialize] writes the tag alone under ["type"] when
    there is one kind; otherwise it writes a one-element tuple that wraps
    the list of tags, not the list itself.  For the kinds [int] and
    [string] the entry is [(["int", "string"],)]. *)
Theorem C2_input_serialize_type_entry (B : Builtins) :
  (∀ kinds dflt desc en ct,
     ∃ data,
       InputDefinition.serialize
         (InputDefinition.mk (Member <$> kinds) dflt desc en ct) = Ok data ∧
       data !! "type" =
         Some (match kinds with
               | [_] => type_on_wire kinds
               | _ => VTuple [type_on_wire kinds]
               end)) ∧
  (∃ data,
     InputDefinition.serialize
       (InputDefinition.init [Member ValueType.INT; Member ValueType.STRING])
       = Ok data ∧
     data !! "type" = Some (VTuple [VList [VStr "int"; VStr "string"]]) ∧
     data !! "type"
       ≠ Some (type_on_wire [ValueType.INT; ValueType.STRING])).
Proof.
  split.
  - intros kinds dflt desc en ct.
    destruct (serialize_members kinds dflt desc en ct) as (data & Hs & Hty & _).
    eauto.
  - destruct (serialize_members [ValueType.INT; ValueType.STRING]
                VNone VNone VNone VNone) as (data & Hs & Hty & _).
    exists data. split_and!; [done|done|]. by rewrite Hty.
Qed.

(** With no kind or several kinds the round trip raises. *)
Lemma roundtrip_not_one_kind `{Builtins} (kinds : list ValueType.t)
    (dflt desc en ct : PyVal) :
  length kinds ≠ 1 →
  (data ← InputDefinition.serialize
            (InputDefinition.mk (Member <$> kinds) dflt desc en ct) ;
   InputDefinition.deserialize data) = Raise (AttributeError "lower").
Proof.
  intros Hlen.
  destruct (serialize_members kinds dflt desc en ct) as (data & -> & Hty & _).
  cbn [mbind result_bind]. unfold InputDefinition.deserialize, getitem.
  rewrite Hty. destruct kinds as [|k [|k' kinds]]; done.
Qed.

(** With one kind the round trip keeps the kind and the populated
    [default], [description] and [enum]; [custom_type] is not read back. *)
Lemma roundtrip_one_kind `{Builtins} (k : ValueType.t) (dflt desc en ct : PyVal) :
  ∃ d,
    (data ← InputDefinition.serialize
              (InputDefinition.mk [Member k] dflt desc en ct) ;
     InputDefinition.deserialize data) = Ok d ∧
    InputDefinition.type d = [Member k] ∧
    (truthy dflt = true → InputDefinition.default d = builtin_str dflt) ∧
    (truthy desc = true → InputDefinition.description d = desc) ∧
    (truthy en = true → InputDefinition.enum d = en) ∧
    InputDefinition.custom_type d = VNone.
Proof.
  destruct (serialize_members [k] dflt desc en ct)
    as (data & Hs & Hty & Hdflt & Hdesc & Hen & _).
  cbn [fmap list_fmap] in Hs. rewrite Hs. cbn [mbind result_bind].
  unfold InputDefinition.deserialize, getitem, dict_get.
  rewrite Hty, Hdflt, Hdesc, Hen. cbn [type_on_wire mbind result_bind].
  unfold InputDefinition._deserialize_type. cbn [map_result mbind result_bind].
  rewrite (ValueType_resolve _ k eq_refl). cbn [mbind result_bind].
  eexists. split; [reflexivity|]. cbn.
  split_and!; try done; by intros ->.
Qed.

(** C1, on the code.  The round trip raises for a definition with the two
    kinds [int] and [string]; and for a definition with one kind and a
    populated [custom_type] it returns a definition without the
    [custom_type]. *)
Theorem C1_roundtrip_breaks (B : Builtins) :
  (data ← InputDefinition.serialize
            (InputDefinition.init
               [Member ValueType.INT; Member ValueType.STRING]) ;
   InputDefinition.deserialize data) = Raise (AttributeError "lower") ∧
  (data ← InputDefinition.serialize
            (InputDefinition.mk [Member ValueType.STRING] VNone VNone VNone
               (VList [VStr "CustomConnection"])) ;
   InputDefinition.deserialize data)
    = Ok (InputDefinition.mk [Member ValueType.STRING]
            (VStr "") (VStr "") (VList []) VNone).
Proof.
  split.
  - by apply (roundtrip_not_one_kind [ValueType.INT; ValueType.STRING]).
  - by vm_compute.
Qed.

(** ** Further properties of the code *)

(** *** Resolution of tags *)

Lemma ValueType_all_complete (k : ValueType.t) : k ∈ ValueType.all.
Proof. destruct k; set_solver. Qed.

Lemma ToolType_all_complete (k : ToolType.t) : k ∈ ToolType.all.
Proof. destruct k; set_solver. Qed.

Lemma ValueType_unregistered (s : string) :
  (∀ k, ¬ ci_eq s (ValueType.value k)) →
  _deserialize_enum (E:=ValueType.t) (VStr s) = Ok (Raw (VStr s)).
Proof.
  intros Hno.
  destruct (deserialize_enum_string (H:=ValueType.py_enum) s eq_refl)
    as (_ & _ & Hnone & _).
  apply Hnone. intros k _ (t & [= <-] & Hk). by apply (Hno k).
Qed.

Lemma ToolType_unregistered (s : string) :
  (∀ k, ¬ ci_eq s (ToolType.value k)) →
  _deserialize_enum (E:=ToolType.t) (VStr s) = Ok (Raw (VStr s)).
Proof.
  intros Hno.
  destruct (deserialize_enum_string (H:=ToolType.py_enum) s eq_refl)
    as (_ & _ & Hnone & _).
  apply Hnone. intros k _ (t & [= <-] & Hk). by apply (Hno k).
Qed.

(** The two outcomes of resolving a string against [ValueType]. *)
Lemma ValueType_cases (s : string) :
  (∃ k, ci_eq s (ValueType.value k) ∧
        _deserialize_enum (VStr s) = Ok (Member k)) ∨
  ((∀ k, ¬ ci_eq s (ValueType.value k)) ∧
   _deserialize_enum (E:=ValueType.t) (VStr s) = Ok (Raw (VStr s))).
Proof.
  destruct (decide (Exists (λ k, ci_eq s (ValueType.value k)) ValueType.all))
    as [Hex|Hno].
  - apply Exists_exists in Hex as (k & _ & Hk). left. exists k.
    split; [done|]. by apply ValueType_resolve.
  - right. assert (Hall : ∀ k, ¬ ci_eq s (ValueType.value k)).
    { intros k Hk. apply Hno, Exists_exists. exists k.
      split; [apply ValueType_all_complete|done]. }
    split; [done|]. by apply ValueType_unregistered.
Qed.

Lemma ToolType_cases (s : string) :
  (∃ k, ci_eq s (ToolType.value k) ∧
        _deserialize_enum (VStr s) = Ok (Member k)) ∨
  ((∀ k, ¬ ci_eq s (ToolType.value k)) ∧
   _deserialize_enum (E:=ToolType.t) (VStr s) = Ok (Raw (VStr s))).
Proof.
  destruct (decide (Exists (λ k, ci_eq s (ToolType.value k)) ToolType.all))
    as [Hex|Hno].
  - apply Exists_exists in Hex as (k & _ & Hk). left. exists k.
    split; [done|]. by apply ToolType_resolve.
  - right. assert (Hall : ∀ k, ¬ ci_eq s (ToolType.value k)).
    { intros k Hk. apply Hno, Exists_exists. exists k.
      split; [apply ToolType_all_complete|done]. }
    split; [done|]. by apply ToolType_unregistered.
Qed.

Lemma ValueType_not_str (v : PyVal) :
  is_str v = false →
  _deserialize_enum (E:=ValueType.t) v = Raise (AttributeError "lower").
Proof. by destruct v. Qed.

Lemma ToolType_not_str (v : PyVal) :
  is_str v = false →
  _deserialize_enum (E:=ToolType.t) v = Raise (AttributeError "lower").
Proof. by destruct v. Qed.

Lemma ValueType_range (v : PyVal) (r : Resolved ValueType.t) :
  _deserialize_enum v = Ok r → is_str v = true ∧ resolved ValueType.value r.
Proof.
  destruct v as [| | | |s| | |]; try done. intros Hr. split; [done|].
  destruct (ValueType_cases s) as [(k & _ & Hk)|(Hno & Hk)];
    rewrite Hk in Hr; injection Hr as <-; done.
Qed.

Lemma ToolType_range (v : PyVal) (r : Resolved ToolType.t) :
  _deserialize_enum v = Ok r → is_str v = true ∧ resolved ToolType.value r.
Proof.
  destruct v as [| | | |s| | |]; try done. intros Hr. split; [done|].
  destruct (ToolType_cases s) as [(k & _ & Hk)|(Hno & Hk)];
    rewrite Hk in Hr; injection Hr as <-; done.
Qed.

Lemma ValueType_resolve_plain (r : Resolved ValueType.t) :
  resolved ValueType.value r →
  _deserialize_enum (plain ValueType.value r) = Ok r.
Proof.
  destruct r as [k|v]; simpl.
  - intros _. by apply ValueType_resolve.
  - destruct v; try done. apply ValueType_unregistered.
Qed.

Lemma ToolType_resolve_plain (r : Resolved ToolType.t) :
  resolved ToolType.value r →
  _deserialize_enum (plain ToolType.value r) = Ok r.
Proof.
  destruct r as [k|v]; simpl.
  - intros _. by apply ToolType_resolve.
  - destruct v; try done. apply ToolType_unregistered.
Qed.

(** X1.  Resolving is stable: whatever [_deserialize_enum] returns against
    [ValueType] or [ToolType], written back as plain data (a member as its
    tag, a kept string as itself), resolves to the same result again. *)
Theorem X1_resolve_stable :
  (∀ v (r : Resolved ValueType.t),
     _deserialize_enum v = Ok r →
     _deserialize_enum (plain ValueType.value r) = Ok r) ∧
  (∀ v (r : Resolved ToolType.t),
     _deserialize_enum v = Ok r →
     _deserialize_enum (plain ToolType.value r) = Ok r).
Proof.
  split; intros v r Hr.
  - apply ValueType_resolve_plain. by apply (ValueType_range v).
  - apply ToolType_resolve_plain. by apply (ToolType_range v).
Qed.

(** *** Definitions on the wire *)

Lemma map_by_value_tags (kinds : list ValueType.t) :
  map_result ValueType.by_value (tags kinds) = Ok kinds.
Proof.
  induction kinds as [|k kinds IH]; [done|].
  unfold tags in *. rewrite fmap_cons. cbn [map_result].
  rewrite (proj2 (by_value_Ok _ k) eq_refl). cbn [mbind result_bind].
  by rewrite IH.
Qed.

Lemma output_serialize_entries (kinds : list ValueType.t) (desc prop : PyVal) :
  ∃ data,
    OutputDefinition.serialize
      (OutputDefinition.mk (Member <$> kinds) desc prop) = Ok data ∧
    data !! "type" = Some (type_on_wire kinds) ∧
    data !! "is_property" = Some prop ∧
    data !! "description" = (if truthy desc then Some desc else None).
Proof.
  unfold OutputDefinition.serialize. cbn [OutputDefinition.type].
  rewrite value_of_members. cbn [mbind result_bind].
  cbn [OutputDefinition.description OutputDefinition.is_property].
  destruct kinds as [|k [|k' kinds]]; cbn [tags fmap list_fmap];
    (eexists; split; [reflexivity|]);
    destruct (truthy desc); split_and!; by simplify_map_eq.
Qed.

Lemma output_deserialize_wire (data : gmap string PyVal)
    (kinds : list ValueType.t) :
  data !! "type" = Some (type_on_wire kinds) →
  OutputDefinition.deserialize data =
    Ok (OutputDefinition.mk (Member <$> kinds)
          (dict_get data "description" (VStr ""))
          (dict_get data "is_property" (VBool false))).
Proof.
  intros Hty. unfold OutputDefinition.deserialize, getitem. rewrite Hty.
  cbn [mbind result_bind].
  destruct kinds as [|k [|k' kinds]]; cbn [type_on_wire].
  - done.
  - rewrite (proj2 (by_value_Ok _ k) eq_refl). done.
  - by rewrite map_by_value_tags.
Qed.

(** X2.  The round trip of an output definition whose kinds are members:
    [OutputDefinition.deserialize] reads back from
    [OutputDefinition.serialize] the same kinds, whatever their number, and
    the same [is_property]; the description comes back as it was when it
    is truthy, and as the empty string otherwise. *)
Theorem X2_output_roundtrip (kinds : list ValueType.t) (desc prop : PyVal) :
  (data ← OutputDefinition.serialize
            (OutputDefinition.mk (Member <$> kinds) desc prop) ;
   OutputDefinition.deserialize data)
  = Ok (OutputDefinition.mk (Member <$> kinds)
          (if truthy desc then desc else VStr "") prop).
Proof.
  destruct (output_serialize_entries kinds desc prop)
    as (data & -> & Hty & Hprop & Hdesc).
  cbn [mbind result_bind]. rewrite (output_deserialize_wire data kinds Hty).
  unfold dict_get. rewrite Hprop, Hdesc. by destruct (truthy desc).
Qed.

Lemma value_of_Ok_member (r : Resolved ValueType.t) (v : PyVal) :
  value_of r = Ok v → ∃ k, r = Member k.
Proof. destruct r as [k|]; [eauto|done]. Qed.

Lemma members_fmap (l : list (Resolved ValueType.t)) :
  Forall (λ r, ∃ k, r = Member k) l → ∃ kinds, l = Member <$> kinds.
Proof.
  induction 1 as [|r l [k ->] _ [kinds ->]]; [by exists []|].
  by exists (k :: kinds).
Qed.

Lemma map_value_of_Ok (l : list (Resolved ValueType.t)) (vs : list PyVal) :
  map_result value_of l = Ok vs → Forall (λ r, ∃ k, r = Member k) l.
Proof.
  intros Hl. apply map_result_Ok_inv in Hl.
  induction Hl as [|r v l vs Hr _ IH]; constructor; [|done].
  by apply value_of_Ok_member in Hr.
Qed.

Lemma map_value_of_Raise (l : list (Resolved ValueType.t)) (e : Exc) :
  map_result value_of l = Raise e → e = AttributeError "value".
Proof.
  induction l as [|r l IH]; [done|]. cbn [map_result].
  destruct r as [k|v]; cbn [value_of mbind result_bind].
  - destruct (map_result value_of l) as [vs|e']; [done|].
    intros [= <-]. by apply IH.
  - by intros [= <-].
Qed.

Lemma input_serialize_succeeds `{Builtins} (d : InputDefinition.t) :
  succeeds (InputDefinition.serialize d) ↔
  Forall (λ r, ∃ k, r = Member k) (InputDefinition.type d).
Proof.
  destruct d as [ty dflt desc en ct]. cbn [InputDefinition.type]. split.
  - intros [data Hd]. unfold InputDefinition.serialize in Hd.
    cbn [InputDefinition.type] in Hd.
    apply bind_Ok in Hd as (vs & Hvs & _). by apply map_value_of_Ok in Hvs.
  - intros Hall. apply members_fmap in Hall as [kinds ->].
    destruct (serialize_members kinds dflt desc en ct) as (data & Hd & _).
    by exists data.
Qed.

(** X3.  [serialize] of an input or output definition succeeds exactly
    when every entry of its [type] list is a member; when an entry is a
    value that was kept unresolved, it raises the [AttributeError] of the
    missing attribute [value]. *)
Theorem X3_serialize_needs_members (B : Builtins) :
  (∀ d : InputDefinition.t,
     (succeeds (InputDefinition.serialize d) ↔
        Forall (λ r, ∃ k, r = Member k) (InputDefinition.type d)) ∧
     (∀ e, InputDefinition.serialize d = Raise e → e = AttributeError "value")) ∧
  (∀ d : OutputDefinition.t,
     (succeeds (OutputDefinition.serialize d) ↔
        Forall (λ r, ∃ k, r = Member k) (OutputDefinition.type d)) ∧
     (∀ e, OutputDefinition.serialize d = Raise e → e = AttributeError "value")).
Proof.
  split.
  - intros d. split; [apply input_serialize_succeeds|].
    destruct d as [ty dflt desc en ct].
    + intros e He.
      destruct (map_result value_of ty) as [vs|e'] eqn:Hvs.
      * apply map_value_of_Ok, members_fmap in Hvs as [kinds ->].
        destruct (serialize_members kinds dflt desc en ct) as (data & Hd & _).
        rewrite Hd in He. done.
      * unfold InputDefinition.serialize in He.
        cbn [InputDefinition.type] in He. rewrite Hvs in He.
        injection He as <-. by apply map_value_of_Raise in Hvs.
  - intros [ty desc prop]. cbn [OutputDefinition.type]. split_and!.
    + split.
      * intros [data Hd]. unfold OutputDefinition.serialize in Hd.
        cbn [OutputDefinition.type] in Hd.
        apply bind_Ok in Hd as (vs & Hvs & _). by apply map_value_of_Ok in Hvs.
      * intros Hall. apply members_fmap in Hall as [kinds ->].
        destruct (output_serialize_entries kinds desc prop) as (data & Hd & _).
        by exists data.
    + intros e. unfold OutputDefinition.serialize. cbn [OutputDefinition.type].
      destruct (map_result value_of ty) as [vs|e'] eqn:Hvs; [done|].
      cbn [mbind result_bind]. intros [= <-]. by apply map_value_of_Raise in Hvs.
Qed.

Lemma str_resolves (e : PyVal) :
  is_str e = true → succeeds (_deserialize_enum (E:=ValueType.t) e).
Proof.
  destruct e as [| | | |s| | |]; try done. intros _.
  destruct (ValueType_cases s) as [(k & _ & Hk)|(_ & Hk)]; by eexists.
Qed.

Lemma map_resolve_succeeds (l : list PyVal) :
  succeeds (map_result (_deserialize_enum (E:=ValueType.t)) l) ↔
  Forall (λ e, is_str e = true) l.
Proof.
  split.
  - intros [rs Hrs]. apply map_result_Ok_inv in Hrs.
    induction Hrs as [|e r l rs He _ IH]; constructor; [|done].
    by apply ValueType_range in He as [? _].
  - induction 1 as [|e l He _ [rs IH]]; [by eexists|].
    destruct (str_resolves e He) as [r Hr].
    exists (r :: rs). cbn [map_result]. by rewrite Hr, IH.
Qed.

Lemma map_resolve_Raise (l : list PyVal) (e : Exc) :
  map_result (_deserialize_enum (E:=ValueType.t)) l = Raise e →
  e = AttributeError "lower".
Proof.
  induction l as [|x l IH]; [done|]. cbn [map_result].
  destruct (is_str x) eqn:Hx.
  - destruct (str_resolves x Hx) as [r ->]. cbn [mbind result_bind].
    destruct (map_result _ l) as [rs|e']; [done|].
    intros [= <-]. by apply IH.
  - rewrite (ValueType_not_str x Hx). by intros [= <-].
Qed.

(** X4.  [InputDefinition.deserialize] accepts exactly the mappings whose
    ["type"] entry is a string or a list of strings (unknown names
    included).  It raises [KeyError] exactly when the entry is missing, and
    the only other failure is the [AttributeError] of calling [lower] on an
    element that is not a string. *)
Theorem X4_input_deserialize_accepts (data : gmap string PyVal) :
  (succeeds (InputDefinition.deserialize data) ↔
     ∃ ty, data !! "type" = Some ty ∧
           Forall (λ e, is_str e = true) (wire_elements ty)) ∧
  (InputDefinition.deserialize data = Raise (KeyError "type") ↔
     data !! "type" = None) ∧
  (∀ e, InputDefinition.deserialize data = Raise e →
        e = KeyError "type" ∨ e = AttributeError "lower").
Proof.
  unfold InputDefinition.deserialize, getitem,
    InputDefinition._deserialize_type.
  destruct (data !! "type") as [ty|] eqn:Hty; cbn [mbind result_bind].
  - fold (wire_elements ty).
    destruct (map_result _deserialize_enum (wire_elements ty))
      as [rs|e'] eqn:Hrs; cbn [mbind result_bind].
    + split_and!; [|done|done]. split; [|by eexists].
      intros _. exists ty. split; [done|].
      apply map_resolve_succeeds. by exists rs.
    + split_and!.
      * split; [by intros [? ?]|]. intros (ty' & [= <-] & Hall).
        apply map_resolve_succeeds in Hall as [rs Hrs']. congruence.
      * apply map_resolve_Raise in Hrs. by subst e'.
      * intros e [= <-]. right. by apply map_resolve_Raise in Hrs.
  - split_and!.
    + split; [by intros [? ?]|by intros (? & ? & _)].
    + done.
    + intros e [= <-]. by left.
Qed.

(** The kinds read from the wire, element by element. *)
Lemma input_deserialize_kinds (data : gmap string PyVal)
    (d : InputDefinition.t) (ty : PyVal) :
  InputDefinition.deserialize data = Ok d →
  data !! "type" = Some ty →
  Forall2 (λ e r, ∃ s, e = VStr s ∧
             ((∃ k, ci_eq s (ValueType.value k) ∧ r = Member k) ∨
              ((∀ k, ¬ ci_eq s (ValueType.value k)) ∧ r = Raw (VStr s))))
    (wire_elements ty) (InputDefinition.type d).
Proof.
  unfold InputDefinition.deserialize, getitem. intros Hd Hty.
  rewrite Hty in Hd. cbn [mbind result_bind] in Hd.
  apply bind_Ok in Hd as (rs & Hrs & [= <-]). cbn [InputDefinition.type].
  unfold InputDefinition._deserialize_type in Hrs. fold (wire_elements ty) in Hrs.
  apply map_result_Ok_inv in Hrs.
  induction Hrs as [|e r l rs He _ IH]; constructor; [|done].
  destruct (ValueType_range e r He) as [Hstr _].
  destruct e as [| | | |s| | |]; try done. exists s. split; [done|].
  destruct (ValueType_cases s) as [(k & Hk & Hr)|(Hno & Hr)];
    rewrite Hr in He; injection He as <-; eauto.
Qed.


(** X5.  The kinds [InputDefinition.deserialize] returns, element by
    element: a string that matches a tag case-insensitively becomes that
    tag's member, and any other string is kept as it is. *)
Theorem X5_input_deserialize_kinds (data : gmap string PyVal)
    (d : InputDefinition.t) (ty : PyVal) :
  InputDefinition.deserialize data = Ok d →
  data !! "type" = Some ty →
  Forall2 (λ e r, ∃ s, e = VStr s ∧
             ((∃ k, ci_eq s (ValueType.value k) ∧ r = Member k) ∨
              ((∀ k, ¬ ci_eq s (ValueType.value k)) ∧ r = Raw (VStr s))))
    (wire_elements ty) (InputDefinition.type d).
Proof. apply input_deserialize_kinds. Qed.

Lemma X5_witness :
  Forall2 (λ e r, ∃ s, e = VStr s ∧
             ((∃ k, ci_eq s (ValueType.value k) ∧ r = Member k) ∨
              ((∀ k, ¬ ci_eq s (ValueType.value k)) ∧ r = Raw (VStr s))))
    (wire_elements (VList [VStr "String"; VStr "AzureOpenAIConnection"]))
    [Member ValueType.STRING; Raw (VStr "AzureOpenAIConnection")].
Proof.
  apply (X5_input_deserialize_kinds
           {["type" := VList [VStr "String"; VStr "AzureOpenAIConnection"]]}
           (InputDefinition.mk
              [Member ValueType.STRING; Raw (VStr "AzureOpenAIConnection")]
              (VStr "") (VStr "") (VList []) VNone)
           (VList [VStr "String"; VStr "AzureOpenAIConnection"]));
    reflexivity.
Defined.

Lemma output_deserialize_Ok_inv (data : gmap string PyVal)
    (od : OutputDefinition.t) :
  OutputDefinition.deserialize data = Ok od →
  ∃ ty kinds,
    data !! "type" = Some ty ∧ wire_elements ty = tags kinds ∧
    OutputDefinition.type od = Member <$> kinds.
Proof.
  intros Hd. unfold OutputDefinition.deserialize in Hd.
  apply bind_Ok in Hd as (ty & Hty & Hd).
  apply bind_Ok in Hd as (kinds & Hk & [= <-]). simpl.
  apply getitem_Ok in Hty. exists ty, kinds. split_and!; [done| |done].
  destruct ty as [| | | | |l| |]; simpl;
    try (apply bind_Ok in Hk as (k & Hk & [= <-]);
         apply by_value_Ok in Hk; by rewrite Hk).
  by apply map_by_value_Ok.
Qed.

Lemma map_resolve_tags (kinds : list ValueType.t) :
  map_result _deserialize_enum (tags kinds) = Ok (Member <$> kinds).
Proof.
  induction kinds as [|k kinds IH]; [done|].
  unfold tags in *. rewrite !fmap_cons. cbn [map_result].
  rewrite (ValueType_resolve _ k eq_refl). cbn [mbind result_bind].
  by rewrite IH.
Qed.

(** X6.  The strict reading is a special case of the tolerant one: a
    mapping that [OutputDefinition.deserialize] accepts is accepted by
    [InputDefinition.deserialize] too, with the same kinds. *)
Theorem X6_strict_within_tolerant (data : gmap string PyVal)
    (od : OutputDefinition.t) :
  OutputDefinition.deserialize data = Ok od →
  ∃ d, InputDefinition.deserialize data = Ok d ∧
       InputDefinition.type d = OutputDefinition.type od.
Proof.
  intros Hod.
  apply output_deserialize_Ok_inv in Hod as (ty & kinds & Hty & Hwire & ->).
  unfold InputDefinition.deserialize, getitem,
    InputDefinition._deserialize_type.
  rewrite Hty. cbn [mbind result_bind]. fold (wire_elements ty).
  rewrite Hwire, map_resolve_tags. cbn [mbind result_bind].
  eexists. split; [reflexivity|done].
Qed.

Lemma X6_witness :
  ∃ d, InputDefinition.deserialize {["type" := VStr "object"]} = Ok d ∧
       InputDefinition.type d = [Member ValueType.OBJECT].
Proof.
  apply (X6_strict_within_tolerant {["type" := VStr "object"]}
           (OutputDefinition.mk [Member ValueType.OBJECT]
              (VStr "") (VBool false))).
  reflexivity.
Defined.

(** X7.  The failures of [OutputDefinition.deserialize]: [KeyError]
    exactly when ["type"] is missing, and otherwise a [ValueError] that
    names an element of ["type"] that is not the tag of a member. *)
Theorem X7_output_deserialize_failures (data : gmap string PyVal) :
  (OutputDefinition.deserialize data = Raise (KeyError "type") ↔
     data !! "type" = None) ∧
  (∀ e, OutputDefinition.deserialize data = Raise e →
        e = KeyError "type" ∨
        ∃ ty v, data !! "type" = Some ty ∧ v ∈ wire_elements ty ∧
                (∀ k, v ≠ VStr (ValueType.value k)) ∧
                e = ValueError "is not a valid ValueType" v).
Proof.
  assert (Hone : ∀ v e, ValueType.by_value v = Raise e →
            (∀ k, v ≠ VStr (ValueType.value k)) ∧
            e = ValueError "is not a valid ValueType" v).
  { intros v e He. split; [|by apply by_value_Raise].
    intros k ->. by rewrite (proj2 (by_value_Ok _ k) eq_refl) in He. }
  assert (Hmany : ∀ l e, map_result ValueType.by_value l = Raise e →
            ∃ v, v ∈ l ∧ (∀ k, v ≠ VStr (ValueType.value k)) ∧
                 e = ValueError "is not a valid ValueType" v).
  { induction l as [|x l IH]; [done|]. intros e. cbn [map_result].
    destruct (ValueType.by_value x) as [k|e'] eqn:Hx; cbn [mbind result_bind].
    - destruct (map_result ValueType.by_value l) as [ks|e'']; [done|].
      intros [= <-]. destruct (IH _ eq_refl) as (v & Hv & Hno & ->).
      exists v. split_and!; [apply elem_of_cons; by right|done..].
    - intros [= <-]. destruct (Hone x e' Hx) as [Hno ->].
      exists x. split_and!; [apply elem_of_cons; by left|done..]. }
  unfold OutputDefinition.deserialize, getitem.
  destruct (data !! "type") as [ty|] eqn:Hty; cbn [mbind result_bind].
  2: { split; [done|]. intros e [= <-]. by left. }
  split.
  - split; [|done]. intros He.
    destruct ty as [| | | | |l| |];
      try (destruct (ValueType.by_value _) as [k|e'] eqn:Hk;
           [done|destruct (Hone _ _ Hk) as [_ ->]; done]).
    destruct (map_result ValueType.by_value l) as [ks|e'] eqn:Hl; [done|].
    destruct (Hmany _ _ Hl) as (v & _ & _ & ->). done.
  - intros e He. right. exists ty.
    destruct ty as [| | | | |l| |];
      try (destruct (ValueType.by_value _) as [k|e'] eqn:Hk;
           [done|injection He as <-; destruct (Hone _ _ Hk) as [Hno ->];
            eexists; split_and!; [done|by apply list_elem_of_singleton|done..]]).
    destruct (map_result ValueType.by_value l) as [ks|e'] eqn:Hl; [done|].
    injection He as <-. destruct (Hmany _ _ Hl) as (v & Hv & Hno & ->).
    exists v. done.
Qed.

(** X8.  Reading an input definition and writing it again:
    [InputDefinition.serialize] succeeds on what
    [InputDefinition.deserialize] returns exactly when every element of
    ["type"] matches a [ValueType] tag.  A definition that kept an unknown
    name as a string cannot be serialized. *)
Theorem X8_input_deserialize_then_serialize (B : Builtins)
    (data : gmap string PyVal) :
  succeeds (d ← InputDefinition.deserialize data ; InputDefinition.serialize d) ↔
  ∃ ty, data !! "type" = Some ty ∧ Forall registered (wire_elements ty).
Proof.
  split.
  - intros [out Hout]. apply bind_Ok in Hout as (d & Hd & Hs).
    assert (Hmem : Forall (λ r, ∃ k, r = Member k) (InputDefinition.type d)).
    { apply input_serialize_succeeds. by exists out. }
    destruct (data !! "type") as [ty|] eqn:Hty.
    2: { unfold InputDefinition.deserialize, getitem in Hd. by rewrite Hty in Hd. }
    exists ty. split; [done|].
    pose proof (input_deserialize_kinds data d ty Hd Hty) as Hkinds.
    revert Hmem. induction Hkinds as [|e r l rs (s & -> & Hr) _ IH];
      intros Hmem; [constructor|].
    apply Forall_cons in Hmem as [[k ->] Hmem]. constructor; [|by apply IH].
    destruct Hr as [(k' & Hk' & _)|(_ & [=])]. by exists s, k'.
  - intros (ty & Hty & Hreg).
    assert (Hstr : Forall (λ e, is_str e = true) (wire_elements ty)).
    { eapply Forall_impl; [exact Hreg|]. by intros e (s & k & -> & _). }
    assert (Hd : succeeds (InputDefinition.deserialize data)).
    { unfold InputDefinition.deserialize, getitem,
        InputDefinition._deserialize_type.
      rewrite Hty. cbn [mbind result_bind]. fold (wire_elements ty).
      apply map_resolve_succeeds in Hstr as [rs ->]. by eexists. }
    destruct Hd as [d Hd]. rewrite Hd. cbn [mbind result_bind].
    apply input_serialize_succeeds.
    pose proof (input_deserialize_kinds data d ty Hd Hty) as Hkinds.
    clear Hstr. induction Hkinds as [|e r l rs (s & -> & Hr) _ IH];
      [constructor|].
    apply Forall_cons in Hreg as [(s' & k & [= <-] & Hk) Hreg].
    constructor; [|by apply IH].
    destruct Hr as [(k' & _ & ->)|(Hno & _)]; [by eexists|by destruct (Hno k)].
Qed.

(** *** Dictionaries built from pairs *)

Lemma foldl_insert_notin (pairs : list (string * PyVal))
    (d : gmap string PyVal) (k : string) :
  k ∉ pairs.*1 → foldl (λ d kv, <[kv.1 := kv.2]> d) d pairs !! k = d !! k.
Proof.
  revert d. induction pairs as [|[k' v] pairs IH]; intros d Hk; [done|].
  simpl in *. apply not_elem_of_cons in Hk as [Hne Hk].
  rewrite IH by done. by rewrite lookup_insert_ne.
Qed.

Lemma dict_of_lookup_Some_inv (pairs : list (string * PyVal))
    (k : string) (v : PyVal) :
  dict_of pairs !! k = Some v → (k, v) ∈ pairs.
Proof.
  unfold dict_of.
  assert (Hgen : ∀ d : gmap string PyVal,
            foldl (λ d kv, <[kv.1 := kv.2]> d) d pairs !! k = Some v →
            (k, v) ∈ pairs ∨ d !! k = Some v).
  { induction pairs as [|[k' v'] pairs IH]; intros d Hd; [by right|].
    simpl in Hd. apply IH in Hd as [Hin|Hd].
    - left. by apply list_elem_of_further.
    - destruct (decide (k' = k)) as [->|Hne].
      + rewrite lookup_insert_eq in Hd. injection Hd as ->.
        left. apply list_elem_of_here.
      + rewrite lookup_insert_ne in Hd by done. by right. }
  intros Hd. by destruct (Hgen ∅ Hd) as [?|?].
Qed.

Lemma dict_of_lookup_Some (pairs : list (string * PyVal))
    (k : string) (v : PyVal) :
  NoDup pairs.*1 → (k, v) ∈ pairs → dict_of pairs !! k = Some v.
Proof.
  unfold dict_of. generalize (∅ : gmap string PyVal).
  induction pairs as [|[k' v'] pairs IH]; intros d Hnd Hin.
  - by apply elem_of_nil in Hin.
  - simpl in *. apply NoDup_cons in Hnd as [Hk' Hnd].
    apply elem_of_cons in Hin as [[= -> ->]|Hin].
    + rewrite foldl_insert_notin by done. apply lookup_insert_eq.
    + by apply IH.
Qed.

Lemma filter_keys_NoDup (P : string * PyVal → Prop) `{∀ x, Decision (P x)}
    (pairs : list (string * PyVal)) :
  NoDup pairs.*1 → NoDup (filter P pairs).*1.
Proof.
  induction pairs as [|[k v] pairs IH]; intros Hnd; [constructor|].
  simpl in Hnd. apply NoDup_cons in Hnd as [Hk Hnd].
  rewrite filter_cons. destruct (decide (P (k, v))); [|by apply IH].
  simpl. apply NoDup_cons. split; [|by apply IH].
  intros Hin. apply Hk. apply list_elem_of_fmap in Hin as (kv & -> & Hin).
  apply list_elem_of_filter in Hin as [_ Hin].
  apply list_elem_of_fmap. by exists kv.
Qed.

(** A field written by the factory of [Tool.serialize]: kept unless it is
    [None] or named ["outputs"]. *)
Lemma dict_factory_lookup (pairs : list (string * PyVal))
    (k : string) (v : PyVal) :
  NoDup pairs.*1 → (k, v) ∈ pairs →
  Tool.dict_factory pairs !! k =
    if decide (is_not_none v ∧ k ≠ "outputs") then Some v else None.
Proof.
  intros Hnd Hin. unfold Tool.dict_factory.
  set (P := λ kv : string * PyVal, is_not_none kv.2 ∧ kv.1 ≠ "outputs").
  destruct (decide (is_not_none v ∧ k ≠ "outputs")) as [HP|HP].
  - apply dict_of_lookup_Some; [by apply filter_keys_NoDup|].
    apply list_elem_of_filter. by split.
  - destruct (dict_of (filter P pairs) !! k) as [v'|] eqn:Hv'; [|done].
    apply dict_of_lookup_Some_inv, list_elem_of_filter in Hv' as [HP' Hin'].
    pose proof (dict_of_lookup_Some pairs k v Hnd Hin) as H1.
    pose proof (dict_of_lookup_Some pairs k v' Hnd Hin') as H2.
    rewrite H1 in H2. injection H2 as <-. by destruct HP.
Qed.

Lemma dict_factory_get (pairs : list (string * PyVal))
    (k : string) (v dflt : PyVal) :
  NoDup pairs.*1 → (k, v) ∈ pairs → k ≠ "outputs" →
  dict_get (Tool.dict_factory pairs) k dflt = or_default v dflt.
Proof.
  intros Hnd Hin Hk. unfold dict_get, or_default.
  rewrite (dict_factory_lookup pairs k v Hnd Hin).
  destruct (decide (is_not_none v ∧ k ≠ "outputs")) as [[Hv _]|Hd].
  - by destruct v.
  - destruct (is_not_none v); [|done]. by destruct Hd.
Qed.

Lemma dict_factory_getitem (pairs : list (string * PyVal))
    (k : string) (v : PyVal) :
  NoDup pairs.*1 → (k, v) ∈ pairs → k ≠ "outputs" → v ≠ VNone →
  getitem (Tool.dict_factory pairs) k = Ok v.
Proof.
  intros Hnd Hin Hk Hv. unfold getitem.
  rewrite (dict_factory_lookup pairs k v Hnd Hin).
  rewrite decide_True; [done|]. split; [by destruct v|done].
Qed.

Lemma or_default_None (v : PyVal) : or_default v VNone = v.
Proof. by destruct v. Qed.

(** *** Comprehensions over dictionaries *)

Lemma dict_comprehension_Ok {A} (f : PyVal → Result A)
    (d : gmap string PyVal) (m' : gmap string A) :
  (∀ k, d !! k = None → m' !! k = None) →
  (∀ k v, d !! k = Some v → ∃ r, f v = Ok r ∧ m' !! k = Some r) →
  dict_comprehension f d = Ok m'.
Proof.
  unfold dict_comprehension. revert m'.
  apply (map_fold_weak_ind (λ acc d, ∀ m' : gmap string A,
           (∀ k, d !! k = None → m' !! k = None) →
           (∀ k v, d !! k = Some v → ∃ r, f v = Ok r ∧ m' !! k = Some r) →
           acc = Ok m')).
  - intros m' Hnone _. f_equal. symmetry. apply map_empty.
    intros k. apply Hnone, lookup_empty.
  - intros i x m r Hi IH m' Hnone Hsome.
    destruct (Hsome i x) as (rx & Hfx & Hm'i); [apply lookup_insert_eq|].
    rewrite (IH (delete i m')).
    + cbn [mbind result_bind]. rewrite Hfx. cbn [mbind result_bind].
      f_equal. by apply insert_delete_id.
    + intros k Hk. destruct (decide (k = i)) as [->|Hne].
      * apply lookup_delete_eq.
      * rewrite lookup_delete_ne by done. apply Hnone.
        by rewrite lookup_insert_ne.
    + intros k v Hk. assert (Hne : i ≠ k) by congruence.
      destruct (Hsome k v) as (r' & Hr' & Hm'k); [by rewrite lookup_insert_ne|].
      exists r'. split; [done|]. by rewrite lookup_delete_ne.
Qed.

Lemma dict_comprehension_succeeds {A} (f : PyVal → Result A)
    (d : gmap string PyVal) :
  succeeds (dict_comprehension f d) ↔ ∀ k v, d !! k = Some v → succeeds (f v).
Proof.
  unfold dict_comprehension.
  apply (map_fold_weak_ind (λ acc d,
           succeeds acc ↔ ∀ k v, d !! k = Some v → succeeds (f v))).
  - split; [|by eexists]. intros _ k v Hk. by rewrite lookup_empty in Hk.
  - intros i x m r Hi IH. split.
    + intros [m' Hm']. apply bind_Ok in Hm' as (mm & -> & Hm').
      apply bind_Ok in Hm' as (rx & Hfx & _).
      intros k v Hk. destruct (decide (i = k)) as [->|Hne].
      * rewrite lookup_insert_eq in Hk. injection Hk as <-. by exists rx.
      * rewrite lookup_insert_ne in Hk by done.
        apply (proj1 IH (ex_intro _ mm eq_refl) k v Hk).
    + intros Hall.
      destruct (proj2 IH) as [mm ->].
      { intros k v Hk. apply (Hall k v).
        rewrite lookup_insert_ne; [done|congruence]. }
      destruct (Hall i x (lookup_insert_eq _ _ _)) as [rx Hfx].
      cbn [mbind result_bind]. rewrite Hfx. by eexists.
Qed.

(** *** Tools on the wire *)

Lemma asdict_fields (tool : Tool.t) :
  Tool.asdict tool = Tool.dict_factory (tool_fields tool).
Proof. reflexivity. Qed.

Lemma tool_fields_NoDup (tool : Tool.t) : NoDup (tool_fields tool).*1.
Proof. by apply (bool_decide_unpack _). Qed.

Lemma input_fields_NoDup (i : InputDefinition.t) :
  NoDup (InputDefinition.fields i).*1.
Proof. by apply (bool_decide_unpack _). Qed.

Ltac field_in :=
  solve [ unfold tool_fields, InputDefinition.fields;
          repeat first [apply list_elem_of_here | apply list_elem_of_further] ].

Ltac field_side :=
  first [apply tool_fields_NoDup | apply input_fields_NoDup | field_in | done].

Lemma map_resolve_plain (l : list (Resolved ValueType.t)) :
  Forall (resolved ValueType.value) l →
  map_result _deserialize_enum (plain ValueType.value <$> l) = Ok l.
Proof.
  induction 1 as [|r l Hr _ IH]; [done|].
  rewrite fmap_cons. cbn [map_result].
  rewrite (ValueType_resolve_plain r Hr). cbn [mbind result_bind].
  by rewrite IH.
Qed.

(** An input definition written by [asdict] and read by
    [InputDefinition.deserialize]. *)
Lemma input_reread (i : InputDefinition.t) :
  Forall (resolved ValueType.value) (InputDefinition.type i) →
  InputDefinition.deserialize (Tool.dict_factory (InputDefinition.fields i))
    = Ok (reread_input i).
Proof.
  intros Hres. unfold InputDefinition.deserialize.
  rewrite (dict_factory_getitem _ "type"
             (VList (plain ValueType.value <$> InputDefinition.type i)))
    by field_side.
  cbn [mbind result_bind]. unfold InputDefinition._deserialize_type.
  rewrite (map_resolve_plain _ Hres). cbn [mbind result_bind].
  rewrite (dict_factory_get _ "default" (InputDefinition.default i))
    by field_side.
  rewrite (dict_factory_get _ "description" (InputDefinition.description i))
    by field_side.
  rewrite (dict_factory_get _ "enum" (InputDefinition.enum i)) by field_side.
  done.
Qed.

Lemma plain_resolved_not_none (r : Resolved ToolType.t) :
  resolved ToolType.value r → plain ToolType.value r ≠ VNone.
Proof. destruct r as [k|[]]; done. Qed.

Lemma dict_comprehension_empty {A} (f : PyVal → Result A) :
  dict_comprehension f ∅ = Ok ∅.
Proof. apply dict_comprehension_Ok; [done|]. intros k v Hk. by rewrite lookup_empty in Hk. Qed.

(** The round trip of a tool through [Tool.serialize]. *)
Lemma tool_roundtrip (tool : Tool.t) :
  Tool.name tool ≠ VNone →
  Tool.is_action (Tool.type tool) = false →
  resolved ToolType.value (Tool.type tool) →
  (∀ n i, Tool.inputs tool !! n = Some i →
          Forall (resolved ValueType.value) (InputDefinition.type i)) →
  Tool.deserialize (Tool.serialize tool) = Ok (reread_tool tool).
Proof.
  intros Hname Hact Hty Hins. unfold Tool.serialize. rewrite Hact.
  cbn [negb]. rewrite asdict_fields. unfold Tool.deserialize.
  rewrite (dict_factory_getitem _ "name" (Tool.name tool)) by field_side.
  cbn [mbind result_bind].
  rewrite (dict_factory_getitem _ "type" (plain ToolType.value (Tool.type tool)))
    by first [by apply plain_resolved_not_none | field_side].
  cbn [mbind result_bind].
  rewrite (ToolType_resolve_plain _ Hty). cbn [mbind result_bind].
  rewrite (dict_factory_get _ "inputs"
             (VDict ((λ i, VDict (Tool.dict_factory (InputDefinition.fields i)))
                       <$> Tool.inputs tool))) by field_side.
  cbn [or_default is_not_none items mbind result_bind].
  rewrite (dict_comprehension_Ok _ _ (reread_input <$> Tool.inputs tool)).
  2: { intros k. rewrite !lookup_fmap. by intros ->%fmap_None. }
  2: { intros k v. rewrite !lookup_fmap.
       destruct (Tool.inputs tool !! k) as [i|] eqn:Hi; [|done].
       intros [= <-]. exists (reread_input i). split; [|done].
       cbn [as_dict mbind result_bind]. apply input_reread. by apply (Hins k). }
  cbn [mbind result_bind].
  assert (Hout : dict_get (Tool.dict_factory (tool_fields tool)) "outputs"
                   (VDict ∅) = VDict ∅).
  { unfold dict_get. by rewrite dict_factory_no_outputs. }
  rewrite Hout. cbn [items mbind result_bind].
  rewrite dict_comprehension_empty. cbn [mbind result_bind].
  rewrite (dict_factory_get _ "description" (Tool.description tool)) by field_side.
  rewrite (dict_factory_get _ "module" (Tool.module tool)) by field_side.
  rewrite (dict_factory_get _ "class_name" (Tool.class_name tool)) by field_side.
  rewrite (dict_factory_get _ "source" (Tool.source tool)) by field_side.
  rewrite (dict_factory_get _ "code" (Tool.code tool)) by field_side.
  rewrite (dict_factory_get _ "function" (Tool.function tool)) by field_side.
  rewrite (dict_factory_get _ "connection_type" (Tool.connection_type tool))
    by field_side.
  rewrite (dict_factory_get _ "is_builtin" (Tool.is_builtin tool)) by field_side.
  rewrite (dict_factory_get _ "stage" (Tool.stage tool)) by field_side.
  by rewrite !or_default_None.
Qed.


(** X9.  The round trip of a tool that is not of the action kind, has a
    name, and whose type and input kinds are members or kept unknown
    names: [Tool.deserialize] reads back from [Tool.serialize] the same
    name, type, input kinds and optional fields.  The outputs come back
    empty, a missing description as the empty string, and each input with
    its missing [default], [description] and [enum] replaced by their
    defaults and without [custom_type]. *)
Theorem X9_tool_roundtrip (tool : Tool.t) :
  Tool.name tool ≠ VNone →
  Tool.is_action (Tool.type tool) = false →
  resolved ToolType.value (Tool.type tool) →
  (∀ n i, Tool.inputs tool !! n = Some i →
          Forall (resolved ValueType.value) (InputDefinition.type i)) →
  Tool.deserialize (Tool.serialize tool) = Ok (reread_tool tool).
Proof. apply tool_roundtrip. Qed.

Lemma X9_witness :
  Tool.deserialize (Tool.serialize chat_tool) = Ok (reread_tool chat_tool).
Proof.
  apply X9_tool_roundtrip; [done|done|done|].
  intros n i Hi. cbn [chat_tool Tool.inputs] in Hi.
  apply lookup_singleton_Some in Hi as [_ <-].
  by repeat constructor.
Defined.

(** X10.  What [Tool.serialize] writes for a tool of the action kind cannot
    be read back: without its ["type"] key, [Tool.deserialize] raises
    [KeyError] (on ["name"] already when the tool has no name). *)
Theorem X10_action_tool_not_read_back (tool : Tool.t) :
  Tool.is_action (Tool.type tool) = true →
  Tool.deserialize (Tool.serialize tool) =
    Raise (KeyError (if is_not_none (Tool.name tool) then "type" else "name")).
Proof.
  intros Hact. unfold Tool.deserialize, getitem.
  rewrite (serialize_action_skips tool "type" Hact)
    by (apply list_elem_of_here).
  unfold Tool.serialize. rewrite Hact. cbn [negb].
  rewrite map_lookup_filter, asdict_fields.
  rewrite (dict_factory_lookup _ "name" (Tool.name tool)) by field_side.
  destruct (decide (is_not_none (Tool.name tool) ∧ "name" ≠ "outputs"))
    as [[Hn _]|Hd].
  - cbn [mbind option_bind].
    rewrite option_guard_True by (by apply (bool_decide_unpack _)).
    cbn [mbind option_bind result_bind]. by destruct (is_not_none _).
  - cbn [mbind option_bind]. destruct (is_not_none _); [|done].
    by destruct Hd.
Qed.

Lemma X10_witness :
  Tool.deserialize (Tool.serialize action_tool) = Raise (KeyError "type").
Proof. apply (X10_action_tool_not_read_back action_tool). reflexivity. Defined.

Lemma dict_factory_lookup_Some_inv (pairs : list (string * PyVal))
    (k : string) (v : PyVal) :
  Tool.dict_factory pairs !! k = Some v →
  v ≠ VNone ∧ k ≠ "outputs" ∧ (k, v) ∈ pairs.
Proof.
  unfold Tool.dict_factory. intros Hk.
  apply dict_of_lookup_Some_inv, list_elem_of_filter in Hk as [[Hv Hne] Hin].
  simpl in *. split_and!; [by destruct v|done..].
Qed.

Lemma serialize_lookup_asdict (tool : Tool.t) (k : string) (v : PyVal) :
  Tool.serialize tool !! k = Some v → Tool.asdict tool !! k = Some v.
Proof.
  unfold Tool.serialize. destruct (Tool.is_action _); cbn [negb]; [|done].
  by intros [? _]%map_lookup_filter_Some.
Qed.

(** X11.  [Tool.serialize] skips the fields that are [None]: no key of the
    mapping it returns holds [None], every key is one of the twelve field
    names other than ["outputs"], and the dictionary written for each
    input holds no [None] either. *)
Theorem X11_tool_serialize_skips_none (tool : Tool.t) :
  (∀ k v, Tool.serialize tool !! k = Some v → v ≠ VNone ∧ k ∈ tool_keys) ∧
  (∀ ins n dv,
     Tool.serialize tool !! "inputs" = Some (VDict ins) →
     ins !! n = Some dv →
     ∃ dd, dv = VDict dd ∧ ∀ k v, dd !! k = Some v → v ≠ VNone).
Proof.
  split.
  - intros k v Hk. apply serialize_lookup_asdict in Hk.
    rewrite asdict_fields in Hk.
    apply dict_factory_lookup_Some_inv in Hk as (Hv & Hne & Hin).
    split; [done|]. unfold tool_fields in Hin.
    repeat (apply elem_of_cons in Hin as [[= -> _]|Hin];
            [first [done | by apply (bool_decide_unpack _)]|]).
    by apply elem_of_nil in Hin.
  - intros ins n dv Hins Hn. apply serialize_lookup_asdict in Hins.
    rewrite asdict_fields in Hins.
    rewrite (dict_factory_lookup _ "inputs"
               (VDict ((λ i, VDict (Tool.dict_factory (InputDefinition.fields i)))
                         <$> Tool.inputs tool))) in Hins by field_side.
    rewrite decide_True in Hins by done. injection Hins as <-.
    rewrite lookup_fmap in Hn.
    destruct (Tool.inputs tool !! n) as [i|]; [|done]. injection Hn as <-.
    eexists. split; [done|]. intros k v Hk.
    by apply dict_factory_lookup_Some_inv in Hk as (Hv & _).
Qed.

Lemma require_connection_iff (tool : Tool.t) :
  Tool._require_connection tool = true ↔
    Tool.type tool = Member ToolType.LLM ∨
    ∃ l, Tool.connection_type tool = VList l ∧ l ≠ [].
Proof.
  unfold Tool._require_connection.
  destruct (Tool.type tool) as [[]|v] eqn:Hty;
    destruct (Tool.connection_type tool) as [| | | | |[|x l]| |] eqn:Hct;
    simpl; split; try done; auto;
    try (intros [[=]|(l' & [=] & Hne)]; subst; done);
    try (intros _; right; eexists; split; [done|discriminate]).
Qed.

Lemma bind_succeeds {A B} (r : Result A) (k : A → Result B) :
  succeeds (x ← r ; k x) ↔ ∃ a, r = Ok a ∧ succeeds (k a).
Proof.
  split.
  - intros [b Hb]. apply bind_Ok in Hb as (a & Ha & Hb). exists a. split; [done|by exists b].
  - intros (a & -> & Hk). done.
Qed.

(** What a successful [Tool.deserialize] read. *)
Lemma tool_deserialize_inv (data : gmap string PyVal) (t : Tool.t) :
  Tool.deserialize data = Ok t →
  data !! "name" = Some (Tool.name t) ∧
  (∃ ty, data !! "type" = Some ty ∧ _deserialize_enum ty = Ok (Tool.type t)) ∧
  Tool.connection_type t = dict_get data "connection_type" VNone ∧
  Tool.description t = dict_get data "description" (VStr "").
Proof.
  unfold Tool.deserialize. intros Ht.
  apply bind_Ok in Ht as (name & Hname%getitem_Ok & Ht).
  apply bind_Ok in Ht as (ty & Hty%getitem_Ok & Ht).
  apply bind_Ok in Ht as (type & Htype & Ht).
  apply bind_Ok in Ht as (ins & _ & Ht).
  apply bind_Ok in Ht as (inputs & _ & Ht).
  apply bind_Ok in Ht as (outs & _ & Ht).
  apply bind_Ok in Ht as (outputs & _ & [= <-]).
  cbn. split_and!; [done| |done..]. by exists ty.
Qed.

(** X12.  A tool read by [Tool.deserialize] requires a connection exactly
    when its ["type"] entry matches ["llm"] case-insensitively or its
    ["connection_type"] entry is a non-empty list. *)
Theorem X12_require_connection_of_data (data : gmap string PyVal) (t : Tool.t) :
  Tool.deserialize data = Ok t →
  (Tool._require_connection t = true ↔
     (∃ s, data !! "type" = Some (VStr s) ∧ ci_eq s "llm") ∨
     (∃ l, data !! "connection_type" = Some (VList l) ∧ l ≠ [])).
Proof.
  intros Ht.
  destruct (tool_deserialize_inv data t Ht)
    as (_ & (ty & Hty & Hres) & Hct & _).
  rewrite require_connection_iff.
  assert (Hllm : Tool.type t = Member ToolType.LLM ↔
                 ∃ s, data !! "type" = Some (VStr s) ∧ ci_eq s "llm").
  { destruct (ToolType_range ty _ Hres) as [Hstr _].
    destruct ty as [| | | |s| | |]; try done.
    destruct (ToolType_cases s) as [(k & Hk & Hr)|(Hno & Hr)];
      rewrite Hr in Hres; injection Hres as <-.
    - split.
      + intros [= ->]. by exists s.
      + intros (s' & Hs' & Hci). rewrite Hty in Hs'. injection Hs' as <-.
        f_equal. unfold ci_eq in *. rewrite Hci in Hk. by destruct k.
    - split; [done|].
      intros (s' & Hs' & Hci). rewrite Hty in Hs'. injection Hs' as <-.
      by destruct (Hno ToolType.LLM). }
  assert (Hlist : ∀ l, Tool.connection_type t = VList l ↔
                       data !! "connection_type" = Some (VList l)).
  { intros l. rewrite Hct. unfold dict_get.
    destruct (data !! "connection_type") as [v|]; [|done].
    split; [by intros ->|by intros [= ->]]. }
  rewrite Hllm. split; (intros [?|(l & Hl & Hne)]; [by left|right]);
    exists l; (split; [by apply Hlist|done]).
Qed.

Lemma X12_witness :
  Tool._require_connection llm_tool = true ↔
    (∃ s, llm_data !! "type" = Some (VStr s) ∧ ci_eq s "llm") ∨
    (∃ l, llm_data !! "connection_type" = Some (VList l) ∧ l ≠ []).
Proof.
  apply (X12_require_connection_of_data llm_data llm_tool).
  vm_compute. reflexivity.
Defined.

Lemma as_dict_bind_succeeds {A} (f : gmap string PyVal → Result A) (v : PyVal) :
  succeeds (d ← as_dict v ; f d) ↔ ∃ d, v = VDict d ∧ succeeds (f d).
Proof.
  rewrite bind_succeeds. split.
  - intros (d & Hd & Hf). exists d. split; [|done].
    destruct v; try done. by injection Hd as ->.
  - intros (d & -> & Hf). by exists d.
Qed.

Lemma items_Ok (v : PyVal) (d : gmap string PyVal) :
  items v = Ok d ↔ v = VDict d.
Proof. destruct v; split; intros [=]; by subst. Qed.

Lemma ToolType_succeeds (v : PyVal) :
  succeeds (_deserialize_enum (E:=ToolType.t) v) ↔ ∃ s, v = VStr s.
Proof.
  split.
  - intros [r Hr]. apply ToolType_range in Hr as [Hstr _].
    destruct v; try done. by eexists.
  - intros [s ->].
    destruct (ToolType_cases s) as [(k & _ & Hk)|(_ & Hk)]; by eexists.
Qed.

(** X13.  The mappings [Tool.deserialize] accepts: ["name"] is present,
    ["type"] is a string (a known tag or not), and ["inputs"] and
    ["outputs"], when present, are dictionaries whose values are
    dictionaries that [InputDefinition.deserialize], respectively
    [OutputDefinition.deserialize], accepts. *)
Theorem X13_tool_deserialize_accepts (data : gmap string PyVal) :
  succeeds (Tool.deserialize data) ↔
    is_Some (data !! "name") ∧
    (∃ s, data !! "type" = Some (VStr s)) ∧
    (∃ ins, dict_get data "inputs" (VDict ∅) = VDict ins ∧
       ∀ n v, ins !! n = Some v →
         ∃ d, v = VDict d ∧ succeeds (InputDefinition.deserialize d)) ∧
    (∃ outs, dict_get data "outputs" (VDict ∅) = VDict outs ∧
       ∀ n v, outs !! n = Some v →
         ∃ d, v = VDict d ∧ succeeds (OutputDefinition.deserialize d)).
Proof.
  split.
  - intros [t Ht]. unfold Tool.deserialize in Ht.
    apply bind_Ok in Ht as (name & Hname%getitem_Ok & Ht).
    apply bind_Ok in Ht as (ty & Hty%getitem_Ok & Ht).
    apply bind_Ok in Ht as (type & Htype & Ht).
    apply bind_Ok in Ht as (ins & Hins%items_Ok & Ht).
    apply bind_Ok in Ht as (inputs & Hinputs & Ht).
    apply bind_Ok in Ht as (outs & Houts%items_Ok & Ht).
    apply bind_Ok in Ht as (outputs & Houtputs & _).
    split_and!.
    + by eexists.
    + destruct (proj1 (ToolType_succeeds ty)) as [s ->]; [by eexists|].
      by exists s.
    + exists ins. split; [done|]. intros n v Hn.
      apply as_dict_bind_succeeds.
      by apply (proj1 (dict_comprehension_succeeds _ ins)
                  (ex_intro _ _ Hinputs) n).
    + exists outs. split; [done|]. intros n v Hn.
      apply as_dict_bind_succeeds.
      by apply (proj1 (dict_comprehension_succeeds _ outs)
                  (ex_intro _ _ Houtputs) n).
  - intros ([name Hname] & (s & Hty) & (ins & Hins & Hin) &
            (outs & Houts & Hout)).
    destruct (proj2 (ToolType_succeeds (VStr s))) as [type Htype];
      [by eexists|].
    destruct (proj2 (dict_comprehension_succeeds
                (λ i, d ← as_dict i ; InputDefinition.deserialize d) ins))
      as [inputs Hinputs].
    { intros n v Hn. apply as_dict_bind_succeeds. by apply (Hin n). }
    destruct (proj2 (dict_comprehension_succeeds
                (λ o, d ← as_dict o ; OutputDefinition.deserialize d) outs))
      as [outputs Houtputs].
    { intros n v Hn. apply as_dict_bind_succeeds. by apply (Hout n). }
    unfold Tool.deserialize, getitem. rewrite Hname, Hty.
    cbn [mbind result_bind]. rewrite Htype. cbn [mbind result_bind].
    rewrite Hins. cbn [items mbind result_bind]. rewrite Hinputs.
    cbn [mbind result_bind]. rewrite Houts. cbn [items mbind result_bind].
    rewrite Houtputs. by eexists.
Qed.

(** *** Classification of values and types *)

(** X14.  On plain data the two classifiers agree: the kind
    [ValueType.from_value] gives a value is the kind
    [ValueType.from_type] gives its type.  A boolean is [bool], although
    it is an instance of [int] too. *)
Theorem X14_from_value_agrees_with_from_type (v : PyVal) :
  ValueType.from_value (instance_of v) = ValueType.from_type (type_of v).
Proof. by destruct v. Qed.

(** X15.  [ValueType.from_type] is one-to-one on the classes it knows: two
    classes of the same kind are the same class unless the kind is
    [object], and [object] is the kind of exactly the classes it does not
    know.  [ValueType.from_value] never answers [image], and never answers
    [file_path] for a value that is a string. *)
Theorem X15_classifiers_ranges :
  (∀ c1 c2, ValueType.from_type c1 = ValueType.from_type c2 →
            ValueType.from_type c1 ≠ ValueType.OBJECT → c1 = c2) ∧
  (∀ c, ValueType.from_type c = ValueType.OBJECT ↔ ∃ name, c = COther name) ∧
  (∀ isinstance, ValueType.from_value isinstance ≠ ValueType.IMAGE) ∧
  (∀ isinstance, isinstance CStr = true →
                 ValueType.from_value isinstance ≠ ValueType.FILE_PATH).
Proof.
  split_and!.
  - intros c1 c2 Heq Hne. destruct c1, c2; try done; by destruct Hne.
  - intros c. split; [|by intros [name ->]].
    destruct c; try done. by eexists.
  - intros p. unfold ValueType.from_value. by repeat case_match.
  - intros p Hp. unfold ValueType.from_value. rewrite Hp. by repeat case_match.
Qed.

(** X16.  What [parse] returns for the kinds [bool], [list] and [string]
    is of that kind again and is left unchanged by a second [parse]. *)
Theorem X16_parse_results_stable (B : Builtins) :
  (∀ v r, ValueType.parse ValueType.BOOL v = Ok r →
     ValueType.from_value (instance_of r) = ValueType.BOOL ∧
     ValueType.parse ValueType.BOOL r = Ok r) ∧
  (∀ v r, ValueType.parse ValueType.LIST v = Ok r →
     ValueType.from_value (instance_of r) = ValueType.LIST ∧
     ValueType.parse ValueType.LIST r = Ok r) ∧
  (∀ v r, ValueType.parse ValueType.STRING v = Ok r →
     ValueType.from_value (instance_of r) = ValueType.STRING ∧
     ValueType.parse ValueType.STRING r = Ok r).
Proof.
  split_and!.
  - intros v r Hr.
    assert (Hb : ∃ b, r = VBool b).
    { destruct v as [|b| | |s| | |]; try done.
      - injection Hr as <-. by eexists.
      - rewrite parse_BOOL_str in Hr. case_bool_decide; [|done].
        injection Hr as <-. by eexists. }
    by destruct Hb as [b ->].
  - intros v r Hr.
    assert (Hl : ∃ l, r = VList l).
    { unfold ValueType.parse in Hr.
      apply bind_Ok in Hr as (v' & _ & Hr).
      destruct v'; try done. injection Hr as <-. by eexists. }
    by destruct Hl as [l ->].
  - intros v r [= <-]. by destruct v.
Qed.

(** *** Reading, writing and reading again *)

Lemma input_deserialize_resolved (d : gmap string PyVal) (i : InputDefinition.t) :
  InputDefinition.deserialize d = Ok i →
  Forall (resolved ValueType.value) (InputDefinition.type i).
Proof.
  unfold InputDefinition.deserialize. intros Hi.
  apply bind_Ok in Hi as (ty & _ & Hi).
  apply bind_Ok in Hi as (rs & Hrs & [= <-]). cbn [InputDefinition.type].
  apply map_result_Ok_inv in Hrs.
  induction Hrs as [|e r l rs He _ IH]; constructor; [|done].
  by apply ValueType_range in He as [_ ?].
Qed.

Lemma dict_comprehension_Ok_inv {A} (f : PyVal → Result A)
    (d : gmap string PyVal) (m' : gmap string A) :
  dict_comprehension f d = Ok m' →
  ∀ k r, m' !! k = Some r → ∃ v, d !! k = Some v ∧ f v = Ok r.
Proof.
  unfold dict_comprehension. revert m'.
  apply (map_fold_weak_ind (λ acc d, ∀ m' : gmap string A,
           acc = Ok m' →
           ∀ k r, m' !! k = Some r → ∃ v, d !! k = Some v ∧ f v = Ok r)).
  - intros m' [= <-] k r Hk. by rewrite lookup_empty in Hk.
  - intros i x m acc Hi IH m' Hm' k r Hk.
    apply bind_Ok in Hm' as (mm & -> & Hm').
    apply bind_Ok in Hm' as (rx & Hfx & [= <-]).
    destruct (decide (i = k)) as [->|Hne].
    + rewrite lookup_insert_eq in Hk. injection Hk as <-.
      exists x. by rewrite lookup_insert_eq.
    + rewrite lookup_insert_ne in Hk by done.
      destruct (IH mm eq_refl k r Hk) as (v & Hv & Hfv).
      exists v. by rewrite lookup_insert_ne.
Qed.

Lemma tool_deserialize_inputs (data : gmap string PyVal) (t : Tool.t) :
  Tool.deserialize data = Ok t →
  ∀ n i, Tool.inputs t !! n = Some i →
         Forall (resolved ValueType.value) (InputDefinition.type i).
Proof.
  unfold Tool.deserialize. intros Ht.
  apply bind_Ok in Ht as (name & _ & Ht).
  apply bind_Ok in Ht as (ty & _ & Ht).
  apply bind_Ok in Ht as (type & _ & Ht).
  apply bind_Ok in Ht as (ins & _ & Ht).
  apply bind_Ok in Ht as (inputs & Hinputs & Ht).
  apply bind_Ok in Ht as (outs & _ & Ht).
  apply bind_Ok in Ht as (outputs & _ & [= <-]).
  cbn [Tool.inputs]. intros n i Hn.
  destruct (dict_comprehension_Ok_inv _ _ _ Hinputs n i Hn) as (v & _ & Hv).
  apply bind_Ok in Hv as (d & _ & Hd). by apply input_deserialize_resolved in Hd.
Qed.

(** X17.  A tool read from the wire can be written and read again: when
    [Tool.deserialize] returns a tool that has a name and is not of the
    action kind, reading what [Tool.serialize] writes for it succeeds and
    gives the same tool up to the defaults of the fields that were [None]
    and the outputs, which are not written. *)
Theorem X17_tool_read_write_read (data : gmap string PyVal) (t : Tool.t) :
  Tool.deserialize data = Ok t →
  Tool.name t ≠ VNone →
  Tool.is_action (Tool.type t) = false →
  Tool.deserialize (Tool.serialize t) = Ok (reread_tool t).
Proof.
  intros Ht Hname Hact. apply tool_roundtrip; [done|done| |].
  - destruct (tool_deserialize_inv data t Ht) as (_ & (ty & _ & Hty) & _).
    by apply ToolType_range in Hty as [_ ?].
  - by apply (tool_deserialize_inputs data).
Qed.

Lemma X17_witness :
  Tool.deserialize (Tool.serialize llm_tool) = Ok (reread_tool llm_tool).
Proof.
  apply (X17_tool_read_write_read llm_data llm_tool).
  - vm_compute. reflexivity.
  - discriminate.
  - reflexivity.
Defined.

(** X18.  An output definition read from the wire can always be written
    and read again: [OutputDefinition.serialize] succeeds on what
    [OutputDefinition.deserialize] returns, and reading the result gives
    the same kinds and [is_property], with a falsy description replaced by
    the empty string. *)
Theorem X18_output_read_write_read (data : gmap string PyVal)
    (od : OutputDefinition.t) :
  OutputDefinition.deserialize data = Ok od →
  (data' ← OutputDefinition.serialize od ; OutputDefinition.deserialize data')
  = Ok (OutputDefinition.mk (OutputDefinition.type od)
          (if truthy (OutputDefinition.description od)
           then OutputDefinition.description od else VStr "")
          (OutputDefinition.is_property od)).
Proof.
  intros Hod.
  destruct (output_deserialize_Ok_inv data od Hod) as (ty & kinds & _ & _ & Hty).
  destruct od as [type desc prop].
  cbn [OutputDefinition.type OutputDefinition.description
       OutputDefinition.is_property] in *.
  subst type.
  destruct (output_serialize_entries kinds desc prop)
    as (data' & -> & Hty' & Hprop & Hdesc).
  cbn [mbind result_bind]. rewrite (output_deserialize_wire data' kinds Hty').
  unfold dict_get. rewrite Hprop, Hdesc. by destruct (truthy desc).
Qed.

Lemma X18_witness :
  (data' ← OutputDefinition.serialize
             (OutputDefinition.mk [Member ValueType.STRING; Member ValueType.LIST]
                (VStr "") (VBool false)) ;
   OutputDefinition.deserialize data')
  = Ok (OutputDefinition.mk [Member ValueType.STRING; Member ValueType.LIST]
          (VStr "") (VBool false)).
Proof.
  apply (X18_output_read_write_read
           {["type" := VList [VStr "string"; VStr "list"]]}
           (OutputDefinition.mk [Member ValueType.STRING; Member ValueType.LIST]
              (VStr "") (VBool false))).
  reflexivity.
Defined.

(** X19.  The tags of [ValueType] and of [ToolType] are pairwise different
    even when case is ignored, so at most one member matches a candidate;
    and the lookup [ValueType(v)] is the inverse of [value]. *)
Theorem X19_tags_distinct :
  (∀ k1 k2, ci_eq (ValueType.value k1) (ValueType.value k2) → k1 = k2) ∧
  (∀ k1 k2, ci_eq (ToolType.value k1) (ToolType.value k2) → k1 = k2) ∧
  (∀ v k, ValueType.by_value v = Ok k ↔ v = VStr (ValueType.value k)).
Proof.
  split_and!.
  - intros k1 k2 Hci. unfold ci_eq in Hci. by destruct k1, k2.
  - intros k1 k2 Hci. unfold ci_eq in Hci. by destruct k1, k2.
  - apply by_value_Ok.
Qed.

(** X20.  The round trip of an input definition whose kinds are members,
    in full.  With exactly one kind, [InputDefinition.deserialize] reads
    back from [InputDefinition.serialize] that kind, the default as a
    string ([str] of it when it is truthy, the empty string otherwise),
    the description and the [enum] when they are truthy (the empty string
    and the empty list otherwise) and no [custom_type].  With no kind or
    several kinds it raises [AttributeError]. *)
Theorem X20_input_roundtrip (B : Builtins) (kinds : list ValueType.t)
    (dflt desc en ct : PyVal) :
  (data ← InputDefinition.serialize
            (InputDefinition.mk (Member <$> kinds) dflt desc en ct) ;
   InputDefinition.deserialize data)
  = match kinds with
    | [k] =>
        Ok (InputDefinition.mk [Member k]
              (if truthy dflt then builtin_str dflt else VStr "")
              (if truthy desc then desc else VStr "")
              (if truthy en then en else VList [])
              VNone)
    | _ => Raise (AttributeError "lower")
    end.
Proof.
  destruct kinds as [|k [|k' kinds]];
    try (by apply roundtrip_not_one_kind).
  destruct (serialize_members [k] dflt desc en ct)
    as (data & Hs & Hty & Hdflt & Hdesc & Hen & _).
  rewrite Hs. cbn [mbind result_bind].
  unfold InputDefinition.deserialize, getitem, dict_get.
  rewrite Hty, Hdflt, Hdesc, Hen. cbn [type_on_wire mbind result_bind].
  unfold InputDefinition._deserialize_type. cbn [map_result mbind result_bind].
  rewrite (ValueType_resolve _ k eq_refl). cbn [mbind result_bind].
  by destruct (truthy dflt), (truthy desc), (truthy en).
Qed.
